(** * py-alarm-sink: the alarm record and the alarm sink

    A shallow embedding of [alarm_sink/alarm_sink.py]: the [PerceivedSeverity]
    enumeration, the [AlarmId] named tuple, the [Alarm] value object with its
    properties, and the two operations of [AlarmSink], [submit_alarm] and
    [purge_alarm], run against a model of the operational alarm list that the
    [ncs] binding exposes (keyed lists with [exists], [create] and [del],
    leaves that read as [None] until written, and a write transaction whose
    changes reach the datastore only through [apply]); then the sink's
    context manager and the action of [test_alarm_sink/main.py] that calls
    it. *)

From Stdlib Require Import ZArith String Ascii.
From stdpp Require Import gmap strings list fin_maps.

Local Open Scope string_scope.

(** ** Python values, exceptions and the state-and-exception monad *)

Inductive exception :=
  | ValueError (msg : string)
  | AttributeError (msg : string)
  | KeyError.

Inductive result (A : Type) :=
  | Ok (a : A)
  | Raise (e : exception).
Arguments Ok {A} a.
Arguments Raise {A} e.

(** A computation over a mutable state [S]: it leaves a state behind and
    either returns a value or raises. *)
Definition Py (S A : Type) : Type := S → S * result A.

#[global] Instance Py_ret {S} : MRet (Py S) := λ A a s, (s, Ok a).

#[global] Instance Py_bind {S} : MBind (Py S) := λ A B k m s,
  match m s with
  | (s', Ok a) => k a s'
  | (s', Raise e) => (s', Raise e)
  end.

Definition raise {S A} (e : exception) : Py S A := λ s, (s, Raise e).
Definition modify {S} (f : S → S) : Py S unit := λ s, (f s, Ok tt).
Definition lift {S A} (r : result A) : Py S A := λ s, (s, r).

(** [try: body  except KeyError: pass] *)
Definition try_except_KeyError_pass {S} (body : Py S unit) : Py S unit := λ s,
  match body s with
  | (s', Raise KeyError) => (s', Ok tt)
  | other => other
  end.

(** ** [class PerceivedSeverity(Enum)] *)

Inductive PerceivedSeverity :=
  | CLEARED  (* internal use, do not set manually *)
  | INDETERMINATE
  | MINOR
  | WARNING
  | MAJOR
  | CRITICAL.

#[global] Instance PerceivedSeverity_eq_dec : EqDecision PerceivedSeverity.
Proof. solve_decision. Defined.

(** The [.value] attribute of a member. *)
Definition value (m : PerceivedSeverity) : Z :=
  match m with
  | CLEARED => 1
  | INDETERMINATE => 2
  | MINOR => 3
  | WARNING => 4
  | MAJOR => 5
  | CRITICAL => 6
  end.

(** The Python objects that the module compares with [==] and [!=]. *)
Inductive object :=
  | PyNone
  | PyBool (b : bool)
  | PyInt (z : Z)
  | PyStr (s : string)
  | PyEnum (m : PerceivedSeverity).

(** [a == b].  [bool] is a subclass of [int]; a member of a plain [Enum] (not
    [IntEnum]) is equal to itself only, so it never equals an [int], not even
    its own [.value]; objects of unrelated types are unequal. *)
Definition py_eq (a b : object) : bool :=
  match a, b with
  | PyNone, PyNone => true
  | PyBool x, PyBool y => bool_decide (x = y)
  | PyBool x, PyInt y => bool_decide (Z.b2z x = y)
  | PyInt x, PyBool y => bool_decide (x = Z.b2z y)
  | PyInt x, PyInt y => bool_decide (x = y)
  | PyStr x, PyStr y => bool_decide (x = y)
  | PyEnum x, PyEnum y => bool_decide (x = y)
  | _, _ => false
  end.

(** [a != b] *)
Definition py_ne (a b : object) : bool := negb (py_eq a b).

(** [x or y] on an optional string: [None] and [''] are falsy. *)
Definition py_or (x : option string) (y : string) : string :=
  match x with
  | None => y
  | Some "" => y
  | Some s => s
  end.

(** [value[:n]] for [n >= 0] *)
Fixpoint slice_to (n : nat) (s : string) : string :=
  match n, s with
  | S n', String c s' => String c (slice_to n' s')
  | _, _ => ""
  end.

(** [s.endswith(suffix)] *)
Definition endswith (s suffix : string) : bool :=
  bool_decide (String.length suffix ≤ String.length s)%nat
  && bool_decide
       (substring (String.length s - String.length suffix)%nat
                  (String.length suffix) s = suffix).

(** ** [class AlarmId(namedtuple(...))] *)

Module AlarmId.
Record t := mk {
  device : string;
  managed_object : string;
  type : string;
  specific_problem : option string;
}.
End AlarmId.

(** ** The [ncs] binding: the operational alarm list

    [root.al__alarms.alarm_list.alarm] is a list keyed by the four values
    handed to [exists], [create] and [del]; every entry carries leaves, the
    keyed list [related_alarms] and the list [status_change] keyed by the
    event time. *)

Module ncs.

(** The key values as the caller passes them: three strings and the
    specific problem, which the caller may pass as [None]. *)
Abbreviation key := (string * string * string * option string)%type.

Record status_change_entry := mk_status_change {
  event_time : string;
  perceived_severity : option Z;
  alarm_text : option string;
}.

Record alarm_entry := mk_alarm {
  is_cleared : option bool;
  last_alarm_text : option string;
  last_perceived_severity : option Z;
  last_status_change : option string;
  impacted_objects : option (list string);
  root_cause_objects : option (list string);
  related_alarms : list key;
  status_change : list status_change_entry;
}.

(** A freshly created list entry: no leaf is set. *)
Definition new_alarm : alarm_entry :=
  mk_alarm None None None None None None [] [].

Abbreviation alarm_list := (gmap key alarm_entry).

(** What reading a leaf gives the Python side. *)
Definition read_bool (leaf : option bool) : object :=
  match leaf with Some b => PyBool b | None => PyNone end.
Definition read_str (leaf : option string) : object :=
  match leaf with Some s => PyStr s | None => PyNone end.

(** [leaf.value] on an enumeration leaf: [None] has no attribute [value]. *)
Definition enum_value (leaf : option Z) : result Z :=
  match leaf with
  | Some v => Ok v
  | None => Raise (AttributeError "'NoneType' object has no attribute 'value'")
  end.

(** Leaf assignments on an entry. *)
Definition set_is_cleared (v : bool) (al : alarm_entry) : alarm_entry :=
  mk_alarm (Some v) (last_alarm_text al) (last_perceived_severity al)
    (last_status_change al) (impacted_objects al) (root_cause_objects al)
    (related_alarms al) (status_change al).
Definition set_last_alarm_text (v : string) (al : alarm_entry) : alarm_entry :=
  mk_alarm (is_cleared al) (Some v) (last_perceived_severity al)
    (last_status_change al) (impacted_objects al) (root_cause_objects al)
    (related_alarms al) (status_change al).
Definition set_last_perceived_severity (v : Z) (al : alarm_entry) : alarm_entry :=
  mk_alarm (is_cleared al) (last_alarm_text al) (Some v)
    (last_status_change al) (impacted_objects al) (root_cause_objects al)
    (related_alarms al) (status_change al).
Definition set_last_status_change (v : string) (al : alarm_entry) : alarm_entry :=
  mk_alarm (is_cleared al) (last_alarm_text al) (last_perceived_severity al)
    (Some v) (impacted_objects al) (root_cause_objects al)
    (related_alarms al) (status_change al).
Definition set_impacted_objects (v : option (list string)) (al : alarm_entry)
  : alarm_entry :=
  mk_alarm (is_cleared al) (last_alarm_text al) (last_perceived_severity al)
    (last_status_change al) v (root_cause_objects al)
    (related_alarms al) (status_change al).
Definition set_root_cause_objects (v : option (list string)) (al : alarm_entry)
  : alarm_entry :=
  mk_alarm (is_cleared al) (last_alarm_text al) (last_perceived_severity al)
    (last_status_change al) (impacted_objects al) v
    (related_alarms al) (status_change al).
Definition with_related_alarms (v : list key) (al : alarm_entry) : alarm_entry :=
  mk_alarm (is_cleared al) (last_alarm_text al) (last_perceived_severity al)
    (last_status_change al) (impacted_objects al) (root_cause_objects al)
    v (status_change al).
Definition with_status_change (v : list status_change_entry) (al : alarm_entry)
  : alarm_entry :=
  mk_alarm (is_cleared al) (last_alarm_text al) (last_perceived_severity al)
    (last_status_change al) (impacted_objects al) (root_cause_objects al)
    (related_alarms al) v.

(** [related_alarms.create(k)]: the entry under [k] is added unless there
    already is one. *)
Definition related_alarms_create (k : key) (l : list key) : list key :=
  if bool_decide (k ∈ l) then l else l ++ [k].

(** [status_change.create(t)]: the record under event time [t] is added,
    with no leaf set, unless there already is one. *)
Definition has_event_time (t : string) (sc : status_change_entry) : bool :=
  bool_decide (event_time sc = t).

Definition status_change_create (t : string) (l : list status_change_entry)
  : list status_change_entry :=
  if existsb (has_event_time t) l then l
  else l ++ [mk_status_change t None None].

(** Assignments through the handle [sc] that [create(t)] returned: they
    reach the record stored under [t]. *)
Definition status_change_update (t : string)
    (f : status_change_entry → status_change_entry)
    (l : list status_change_entry) : list status_change_entry :=
  map (λ sc, if has_event_time t sc then f sc else sc) l.

Definition set_perceived_severity (v : Z) (sc : status_change_entry) :=
  mk_status_change (event_time sc) (Some v) (alarm_text sc).
Definition set_alarm_text (v : string) (sc : status_change_entry) :=
  mk_status_change (event_time sc) (perceived_severity sc) (Some v).

(** [alarm_list.exists(k)] *)
Definition exists_ (k : key) (l : alarm_list) : alarm_list * result bool :=
  (l, Ok (bool_decide (is_Some (l !! k)))).

(** [alarm_list.create(k)] returns the entry under [k]: the existing one if
    there is one, a new one otherwise. *)
Definition create (k : key) (l : alarm_list) : alarm_list * result alarm_entry :=
  match l !! k with
  | Some al => (l, Ok al)
  | None => (<[k := new_alarm]> l, Ok new_alarm)
  end.

(** [del alarm_list[k]] raises [KeyError] when there is no entry. *)
Definition del (k : key) (l : alarm_list) : alarm_list * result unit :=
  match l !! k with
  | Some _ => (delete k l, Ok tt)
  | None => (l, Raise KeyError)
  end.

(** A write transaction: the changes made through it are [pending] until
    [apply] writes them to the datastore [cdb]. *)
Record trans := mk_trans {
  pending : alarm_list;
  cdb : alarm_list;
}.

(** An operation on the alarm list, made through the transaction. *)
Definition on_pending {A} (f : Py alarm_list A) : Py trans A :=
  λ t, let '(l, r) := f (pending t) in (mk_trans l (cdb t), r).

(** [t_write.apply()] *)
Definition apply : Py trans unit :=
  modify (λ t, mk_trans (pending t) (pending t)).

(** [with maapi.start_write_trans(db=ncs.OPERATIONAL) as t_write: body]:
    the body runs on a transaction started from the datastore; whatever way
    the block is left, the transaction is closed and only what was applied
    remains. *)
Definition with_write_trans {A} (body : Py trans A) : Py alarm_list A :=
  λ db, let '(t, r) := body (mk_trans db db) in (cdb t, r).

End ncs.

(** ** [class Alarm] *)

Record Alarm := mk_Alarm {
  device : string;
  managed_object : string;
  type : string;
  specific_problem : option string;
  _severity : PerceivedSeverity;
  _alarm_text : string;
  timestamp : string;
  impacted_objects : option (list string);
  related_alarms : option (list AlarmId.t);
  root_cause_objects : option (list string);
}.

(** [Alarm.__init__]; [now] stands for [datetime.datetime.now().isoformat()]
    at the time of the call. *)
Definition Alarm__init__ (now : string) (alarm_id : AlarmId.t)
    (severity : PerceivedSeverity) (alarm_text : string)
    (timestamp : option string) (impacted_objects : option (list string))
    (related_alarms : option (list AlarmId.t))
    (root_cause_objects : option (list string)) : Alarm :=
  {| device := AlarmId.device alarm_id;
     managed_object := AlarmId.managed_object alarm_id;
     type := AlarmId.type alarm_id;
     specific_problem := AlarmId.specific_problem alarm_id;
     _severity := severity;
     _alarm_text := alarm_text;
     timestamp := py_or timestamp now;
     impacted_objects := impacted_objects;
     related_alarms := related_alarms;
     root_cause_objects := root_cause_objects |}.

Definition with__severity (v : PerceivedSeverity) (self : Alarm) : Alarm :=
  mk_Alarm (device self) (managed_object self) (type self)
    (specific_problem self) v (_alarm_text self) (timestamp self)
    (impacted_objects self) (related_alarms self) (root_cause_objects self).

Definition with__alarm_text (v : string) (self : Alarm) : Alarm :=
  mk_Alarm (device self) (managed_object self) (type self)
    (specific_problem self) (_severity self) v (timestamp self)
    (impacted_objects self) (related_alarms self) (root_cause_objects self).

(** The [cleared] property. *)
Definition cleared (self : Alarm) : bool :=
  py_eq (PyEnum (_severity self)) (PyEnum CLEARED).

(** [alarm.cleared = value]; [value] is taken by its truth value. *)
Definition cleared_setter (value : bool) : Py Alarm unit :=
  if value then modify (with__severity CLEARED) else mret tt.

(** The [severity] property. *)
Definition severity (self : Alarm) : PerceivedSeverity := _severity self.

(** [alarm.severity = value] *)
Definition severity_setter (value : PerceivedSeverity) : Py Alarm unit :=
  if py_eq (PyEnum value) (PyEnum CLEARED) then
    raise (ValueError "Use Alarm.cleared property to clear the alarm")
  else modify (with__severity value).

(** The [alarm_text] property. *)
Definition alarm_text (self : Alarm) : string := _alarm_text self.

Definition max_length : nat := 1024.
Definition truncated : string := " .. [truncated]".

(** [alarm.alarm_text = value] *)
Definition alarm_text_setter (value : string) : Py Alarm unit :=
  if bool_decide (max_length < String.length value)%nat then
    modify (with__alarm_text
              (slice_to (max_length - String.length truncated) value
               +:+ truncated))
  else modify (with__alarm_text value).

(** The [ncs_severity] property: the numeric value of the member. *)
Definition ncs_severity (self : Alarm) : Z := value (severity self).

(** ** [class AlarmSink] *)

(** The key of the submitted alarm's own list entry:
    [(device, type, managed_object, specific_problem or '')]. *)
Definition alarm_key (device type managed_object : string)
    (specific_problem : option string) : ncs.key :=
  (device, type, managed_object, Some (py_or specific_problem "")).

(** The key a related alarm is created under:
    [(ra.device, ra.type, ra.managed_object, ra.specific_problem)]. *)
Definition related_alarm_key (ra : AlarmId.t) : ncs.key :=
  (AlarmId.device ra, AlarmId.type ra, AlarmId.managed_object ra,
   AlarmId.specific_problem ra).

(** The test of lines 203-206, with the short circuits of [and] and [or]:
    [al.is_cleared == alarm.cleared and (alarm.cleared is True or
     (al.last_perceived_severity.value == alarm.ncs_severity and
      al.last_alarm_text == alarm.alarm_text))]. *)
Definition nothing_changed (al : ncs.alarm_entry) (alarm : Alarm) : result bool :=
  if py_eq (ncs.read_bool (ncs.is_cleared al)) (PyBool (cleared alarm)) then
    if cleared alarm then Ok true
    else
      match ncs.enum_value (ncs.last_perceived_severity al) with
      | Raise e => Raise e
      | Ok v =>
          if py_eq (PyInt v) (PyInt (ncs_severity alarm)) then
            Ok (py_eq (ncs.read_str (ncs.last_alarm_text al))
                      (PyStr (alarm_text alarm)))
          else Ok false
      end
  else Ok false.

(** Lines 209-225: the assignments made through the handle [al]. *)
Definition write_alarm (alarm : Alarm) (al : ncs.alarm_entry) : ncs.alarm_entry :=
  (* al.is_cleared = alarm.cleared *)
  let al := ncs.set_is_cleared (cleared alarm) al in
  (* al.last_alarm_text = alarm.alarm_text *)
  let al := ncs.set_last_alarm_text (alarm_text alarm) al in
  (* if alarm.ncs_severity != PerceivedSeverity.CLEARED:
         al.last_perceived_severity = alarm.ncs_severity *)
  let al :=
    if py_ne (PyInt (ncs_severity alarm)) (PyEnum CLEARED) then
      ncs.set_last_perceived_severity (ncs_severity alarm) al
    else al in
  (* al.last_status_change = alarm.timestamp *)
  let al := ncs.set_last_status_change (timestamp alarm) al in
  (* al.impacted_objects = alarm.impacted_objects
     al.root_cause_objects = alarm.root_cause_objects *)
  let al := ncs.set_impacted_objects (impacted_objects alarm) al in
  let al := ncs.set_root_cause_objects (root_cause_objects alarm) al in
  (* if alarm.related_alarms:
         for ra in alarm.related_alarms:
             al.related_alarms.create(ra.device, ra.type, ra.managed_object,
                                      ra.specific_problem) *)
  let al :=
    match related_alarms alarm with
    | Some (ra :: ras) =>
        ncs.with_related_alarms
          (foldl (λ l ra, ncs.related_alarms_create (related_alarm_key ra) l)
                 (ncs.related_alarms al) (ra :: ras)) al
    | _ => al
    end in
  (* sc = al.status_change.create(alarm.timestamp) *)
  let sc := ncs.status_change_create (timestamp alarm) (ncs.status_change al) in
  (* sc.perceived_severity = alarm.ncs_severity *)
  let sc :=
    ncs.status_change_update (timestamp alarm)
      (ncs.set_perceived_severity (ncs_severity alarm)) sc in
  (* sc.alarm_text = alarm.alarm_text *)
  let sc :=
    ncs.status_change_update (timestamp alarm)
      (ncs.set_alarm_text (alarm_text alarm)) sc in
  ncs.with_status_change sc al.

(** [AlarmSink.submit_alarm]; the state is the operational datastore behind
    [self.maapi]. *)
Definition submit_alarm (alarm : Alarm) : Py ncs.alarm_list unit :=
  ncs.with_write_trans (
    let k := alarm_key (device alarm) (type alarm) (managed_object alarm)
                       (specific_problem alarm) in
    (* if alarm.cleared is True and not alarm_list.exists(k): return *)
    nothing_to_clear ←
      (if cleared alarm then
         found ← ncs.on_pending (ncs.exists_ k); mret (negb found)
       else mret false);
    if (nothing_to_clear : bool) then mret tt
    else
      (* al = alarm_list.create(k) *)
      al ← ncs.on_pending (ncs.create k);
      (* exit if nothing has changed *)
      same ← lift (nothing_changed al alarm);
      if (same : bool) then mret tt
      else
        ncs.on_pending (modify (<[k := write_alarm alarm al]>));;
        ncs.apply).

(** [AlarmSink.purge_alarm] *)
Definition purge_alarm (alarm_id : AlarmId.t) : Py ncs.alarm_list unit :=
  ncs.with_write_trans (
    try_except_KeyError_pass (
      ncs.on_pending
        (ncs.del (alarm_key (AlarmId.device alarm_id) (AlarmId.type alarm_id)
                    (AlarmId.managed_object alarm_id)
                    (AlarmId.specific_problem alarm_id)));;
      ncs.apply)).

(** * Notions used in the statements *)

(** The key of the alarm's own entry in the alarm list. *)
Definition own_key (alarm : Alarm) : ncs.key :=
  alarm_key (device alarm) (type alarm) (managed_object alarm)
            (specific_problem alarm).

(** What lines 222-225 do to the history: the record under the event time is
    created if there is none, then its two leaves are written. *)
Definition record_status_change (t : string) (sev : Z) (text : string)
    (l : list ncs.status_change_entry) : list ncs.status_change_entry :=
  ncs.status_change_update t (ncs.set_alarm_text text)
    (ncs.status_change_update t (ncs.set_perceived_severity sev)
       (ncs.status_change_create t l)).

(** A caller that submits alarms one after another. *)
Definition submit_all (alarms : list Alarm) (db : ncs.alarm_list) : ncs.alarm_list :=
  foldl (λ db alarm, (submit_alarm alarm db).1) db alarms.

(** ** Sample data: the alarm of the module's own example *)

Definition c0 : AlarmId.t :=
  AlarmId.mk "c0" "/devices/device[name='c0']" "connection-failure" None.

Definition c0_key : ncs.key :=
  ("c0", "connection-failure", "/devices/device[name='c0']", Some "").

(** [Alarm(c0, severity=PerceivedSeverity.MINOR, alarm_text='link down')],
    built at 10:00. *)
Definition link_down : Alarm :=
  Alarm__init__ "2024-05-01T10:00:00" c0 MINOR "link down" None None None None.

(** The same alarm built at 10:05 and cleared with [alarm.cleared = True]. *)
Definition link_down_cleared : Alarm :=
  (cleared_setter true
     (Alarm__init__ "2024-05-01T10:05:00" c0 MINOR "link down"
        None None None None)).1.

(** ['a' * n] *)
Fixpoint repeat_char (c : ascii) (n : nat) : string :=
  match n with
  | O => ""
  | S n' => String c (repeat_char c n')
  end.

(** A second device and an alarm on [c0] that names it as related. *)
Definition c1 : AlarmId.t :=
  AlarmId.mk "c1" "/devices/device[name='c1']" "connection-failure" None.

Definition link_down_related : Alarm :=
  Alarm__init__ "2024-05-01T10:00:00" c0 MINOR "link down" None None
    (Some [c1]) None.

(** The datastore after the module's example alarm was raised, and after it
    was then cleared. *)
Definition db_raised : ncs.alarm_list := (submit_alarm link_down ∅).1.
Definition db_cleared : ncs.alarm_list :=
  (submit_alarm link_down_cleared db_raised).1.
Definition al_raised : ncs.alarm_entry := default ncs.new_alarm (db_raised !! c0_key).
Definition al_cleared : ncs.alarm_entry := default ncs.new_alarm (db_cleared !! c0_key).

(** * The rest of the module and its caller *)

(** ** [PerceivedSeverity[name]] *)

(** The [.name] attribute of a member. *)
Definition name (m : PerceivedSeverity) : string :=
  match m with
  | CLEARED => "CLEARED"
  | INDETERMINATE => "INDETERMINATE"
  | MINOR => "MINOR"
  | WARNING => "WARNING"
  | MAJOR => "MAJOR"
  | CRITICAL => "CRITICAL"
  end.

(** [PerceivedSeverity[key]]: the member of that name, [KeyError] if there is
    none. *)
Definition PerceivedSeverity_getitem (key : string) : result PerceivedSeverity :=
  match
    filter (λ m, name m = key)
      [CLEARED; INDETERMINATE; MINOR; WARNING; MAJOR; CRITICAL]
  with
  | m :: _ => Ok m
  | [] => Raise KeyError
  end.

(** ** [AlarmSink.__init__], [__enter__], [__exit__] *)

(** [ncs.maapi.Maapi], as far as the sink uses it: the user session that was
    started on it, and whether it was closed. *)
Module ncs_maapi.
Record Maapi := mk {
  user_session : option (string * string);
  closed : bool;
}.
(** [ncs.maapi.Maapi()] *)
Definition new : Maapi := mk None false.
(** [m.start_user_session(user, context)] *)
Definition start_user_session (user context : string) (m : Maapi) : Maapi :=
  mk (Some (user, context)) (closed m).
(** [m.close()] *)
Definition close (m : Maapi) : Maapi := mk (user_session m) true.
End ncs_maapi.

(** What a block can be left with: besides the exceptions of [exception],
    the plain [Exception] that [__enter__] raises. *)
Inductive raised :=
  | Exception (msg : string)
  | Builtin (e : exception).

Inductive outcome (A : Type) :=
  | Returned (a : A)
  | Raised (e : raised).
Arguments Returned {A} a.
Arguments Raised {A} e.

Definition outcome_of {A} (r : result A) : outcome A :=
  match r with
  | Ok a => Returned a
  | Raise e => Raised (Builtin e)
  end.

Record AlarmSink := mk_AlarmSink {
  maapi : option ncs_maapi.Maapi;
}.

(** [AlarmSink(maapi)] *)
Definition AlarmSink__init__ (maapi : option ncs_maapi.Maapi) : AlarmSink :=
  mk_AlarmSink maapi.

(** [AlarmSink.__enter__]; a [Maapi] object is truthy, [None] is not. *)
Definition AlarmSink__enter__ (self : AlarmSink) : AlarmSink * outcome unit :=
  match maapi self with
  | Some _ =>
      (self,
       Raised (Exception "If using context manager, don't provide a MAAPI session"))
  | None =>
      (mk_AlarmSink
         (Some (ncs_maapi.start_user_session "python-alarm-sink-write" "system"
                  ncs_maapi.new)),
       Returned tt)
  end.

(** [AlarmSink.__exit__] *)
Definition AlarmSink__exit__ (self : AlarmSink) : AlarmSink * outcome unit :=
  match maapi self with
  | Some m => (mk_AlarmSink (Some (ncs_maapi.close m)), Returned tt)
  | None =>
      (self,
       Raised (Builtin (AttributeError "'NoneType' object has no attribute 'close'")))
  end.

(** [with sink as ask: body], where [body] is a call of a method of [ask] on
    the datastore: [__enter__] first; if it raises, neither the body nor
    [__exit__] runs; otherwise the body, then [__exit__] however the body
    ended, and the body's exception, if any, goes on to the caller. *)
Definition with_AlarmSink {A} (body : Py ncs.alarm_list A)
    (sink : AlarmSink) (db : ncs.alarm_list)
    : AlarmSink * ncs.alarm_list * outcome A :=
  match AlarmSink__enter__ sink with
  | (sink, Raised e) => (sink, db, Raised e)
  | (sink, Returned _) =>
      let '(db, r) := body db in
      match AlarmSink__exit__ sink with
      | (sink, Raised e) => (sink, db, Raised e)
      | (sink, Returned _) => (sink, db, outcome_of r)
      end
  end.

(** ** [test_alarm_sink/main.py]: the [create-alarm] and [update-alarm] action *)

Module action_input.
(** The input of the action: [severity] is [str(action_input.severity)];
    [cleared] is [None] when [action_input.cleared] has no [exists]
    (the [AttributeError] that [cb_action] passes over), and the value of
    [action_input.cleared.exists()] otherwise. *)
Record t := mk {
  device : string;
  managed_object : string;
  type : string;
  specific_problem : option string;
  severity : string;
  alarm_text : string;
  cleared : option bool;
}.
End action_input.

(** The [Alarm] that [cb_action] builds and submits; [upper] is [str.upper],
    [now] the time of the call. *)
Definition action_alarm (now : string) (sev : PerceivedSeverity)
    (input : action_input.t) : Alarm :=
  let alarm_id :=
    AlarmId.mk (action_input.device input) (action_input.managed_object input)
      (action_input.type input) (action_input.specific_problem input) in
  let alarm :=
    Alarm__init__ now alarm_id sev (action_input.alarm_text input)
      None None None None in
  (* try: alarm.cleared = action_input.cleared.exists()
     except AttributeError: pass *)
  match action_input.cleared input with
  | Some b => (cleared_setter b alarm).1
  | None => alarm
  end.

(** [CreateAlarm.cb_action] *)
Definition cb_action (upper : string → string) (now : string)
    (input : action_input.t) (db : ncs.alarm_list)
    : ncs.alarm_list * outcome unit :=
  match PerceivedSeverity_getitem (upper (action_input.severity input)) with
  | Raise e => (db, Raised (Builtin e))
  | Ok sev =>
      let '(_, db, r) :=
        with_AlarmSink (submit_alarm (action_alarm now sev input))
          (AlarmSink__init__ None) db in
      (db, r)
  end.

(** ** More notions used in the statements *)

(** The key that [purge_alarm] deletes. *)
Definition id_key (alarm_id : AlarmId.t) : ncs.key :=
  alarm_key (AlarmId.device alarm_id) (AlarmId.type alarm_id)
    (AlarmId.managed_object alarm_id) (AlarmId.specific_problem alarm_id).

(** What a submission does, as a function of the entry found under the
    alarm's key: the entry it writes there, if it writes, and how it ends. *)
Definition written_entry (alarm : Alarm) (found : option ncs.alarm_entry)
    : option ncs.alarm_entry :=
  match found with
  | None => if cleared alarm then None else Some (write_alarm alarm ncs.new_alarm)
  | Some al =>
      match nothing_changed al alarm with
      | Ok false => Some (write_alarm alarm al)
      | _ => None
      end
  end.

Definition submit_result (alarm : Alarm) (found : option ncs.alarm_entry)
    : result unit :=
  match found with
  | None => Ok tt
  | Some al =>
      match nothing_changed al alarm with
      | Raise e => Raise e
      | Ok _ => Ok tt
      end
  end.

(** An entry that has its status leaves set and at least one history
    record, and a datastore of such entries. *)
Definition complete (al : ncs.alarm_entry) : Prop :=
  is_Some (ncs.is_cleared al) ∧
  is_Some (ncs.last_perceived_severity al) ∧
  is_Some (ncs.last_alarm_text al) ∧
  is_Some (ncs.last_status_change al) ∧
  ncs.status_change al ≠ [].

Definition all_complete (db : ncs.alarm_list) : Prop :=
  ∀ k al, db !! k = Some al → complete al.

(** The event times of an entry's history, in order. *)
Definition event_times (al : ncs.alarm_entry) : list string :=
  map ncs.event_time (ncs.status_change al).

(** [str.upper] on the ASCII letters, for the sample calls. *)
Definition ascii_upper (s : string) : string :=
  string_of_list_ascii
    (map (λ c, let n := N_of_ascii c in
               if ((97 <=? n) && (n <=? 122))%N then ascii_of_N (n - 32) else c)
         (list_ascii_of_string s)).

(** The input of the action for the module's example alarm. *)
Definition link_down_input : action_input.t :=
  action_input.mk "c0" "/devices/device[name='c0']" "connection-failure" None
    "minor" "link down" None.

(** * Properties *)

(** ** What one submission does to the datastore *)

(** [submit_alarm] read off as one case analysis on the datastore. *)
Lemma submit_alarm_cases (alarm : Alarm) (db : ncs.alarm_list) :
  submit_alarm alarm db =
    match db !! own_key alarm with
    | None =>
        if cleared alarm then (db, Ok tt)
        else (<[own_key alarm := write_alarm alarm ncs.new_alarm]> db, Ok tt)
    | Some al =>
        match nothing_changed al alarm with
        | Raise e => (db, Raise e)
        | Ok true => (db, Ok tt)
        | Ok false => (<[own_key alarm := write_alarm alarm al]> db, Ok tt)
        end
    end.
Proof.
  unfold submit_alarm, ncs.with_write_trans, ncs.on_pending, ncs.exists_,
    ncs.create, ncs.apply, lift, modify, mbind, mret, Py_bind, Py_ret, own_key.
  set (k := alarm_key _ _ _ _).
  destruct (db !! k) as [al|] eqn:Hk; simpl.
  - destruct (cleared alarm) eqn:Hc; simpl.
    + rewrite bool_decide_eq_true_2 by eauto. simpl. rewrite Hk. simpl.
      destruct (nothing_changed al alarm) as [[]|e]; reflexivity.
    + rewrite Hk. simpl.
      destruct (nothing_changed al alarm) as [[]|e]; reflexivity.
  - destruct (cleared alarm) eqn:Hc; simpl.
    + rewrite bool_decide_eq_false_2 by (intros [? ?]; congruence). reflexivity.
    + rewrite Hk. simpl. rewrite insert_insert_eq. reflexivity.
Qed.

(** ** Strings: lengths, slices and suffixes *)

Section Strings.

Lemma length_app_string (s1 s2 : string) :
  String.length (s1 +:+ s2) = (String.length s1 + String.length s2)%nat.
Proof. induction s1 as [|c s1 IH]; simpl; [reflexivity | by rewrite IH]. Qed.

Lemma length_slice_to (n : nat) (s : string) :
  (n ≤ String.length s)%nat → String.length (slice_to n s) = n.
Proof.
  revert s. induction n as [|n IH]; intros [|c s] Hn; simpl in *;
    try reflexivity; try lia.
  rewrite IH; lia.
Qed.

Lemma substring_whole (s : string) : substring 0 (String.length s) s = s.
Proof. induction s as [|c s IH]; simpl; [reflexivity | by rewrite IH]. Qed.

Lemma substring_skip_prefix (p s : string) :
  substring (String.length p) (String.length s) (p +:+ s) = s.
Proof. induction p as [|c p IH]; simpl; [apply substring_whole | exact IH]. Qed.

Lemma endswith_app (p suffix : string) : endswith (p +:+ suffix) suffix = true.
Proof.
  unfold endswith. rewrite length_app_string.
  rewrite bool_decide_eq_true_2 by lia. simpl.
  apply bool_decide_eq_true_2.
  replace (String.length p + String.length suffix - String.length suffix)%nat
    with (String.length p) by lia.
  apply substring_skip_prefix.
Qed.

End Strings.

(** ** The [Alarm] properties *)

(** Python equality of two members is equality of members. *)
Lemma py_eq_members (m n : PerceivedSeverity) :
  py_eq (PyEnum m) (PyEnum n) = bool_decide (m = n).
Proof. reflexivity. Qed.

(** A member never equals an [int]. *)
Lemma py_ne_int_member (z : Z) (m : PerceivedSeverity) :
  py_ne (PyInt z) (PyEnum m) = true.
Proof. reflexivity. Qed.

Lemma cleared_iff (self : Alarm) : cleared self = true ↔ severity self = CLEARED.
Proof. unfold cleared, severity. rewrite py_eq_members. apply bool_decide_eq_true. Qed.

Lemma ncs_severity_cleared (self : Alarm) :
  cleared self = true → ncs_severity self = 1%Z.
Proof. intros H%cleared_iff. unfold ncs_severity. by rewrite H. Qed.

Lemma alarm_text_with (v : string) (self : Alarm) :
  alarm_text (with__alarm_text v self) = v.
Proof. reflexivity. Qed.

Lemma severity_with (v : PerceivedSeverity) (self : Alarm) :
  severity (with__severity v self) = v.
Proof. reflexivity. Qed.

Lemma length_truncated : String.length truncated = 15%nat.
Proof. reflexivity. Qed.

(** What assigning the [alarm_text] property stores: a text of more than 1024
    characters is cut to its first 1009 characters followed by the marker,
    1024 characters in all; a shorter text is stored as it is. *)
Lemma alarm_text_setter_truncates (value : string) (self : Alarm) :
  ∃ self', alarm_text_setter value self = (self', Ok tt) ∧
    ((1024 < String.length value)%nat →
       String.length (alarm_text self') = 1024%nat ∧
       endswith (alarm_text self') truncated = true ∧
       alarm_text self' = slice_to 1009 value +:+ " .. [truncated]") ∧
    ((String.length value ≤ 1024)%nat → alarm_text self' = value).
Proof.
  unfold alarm_text_setter, max_length. case_bool_decide as Hlen.
  - eexists. split; [reflexivity|]. split; [intros _ | lia].
    rewrite alarm_text_with, length_truncated.
    split; [| split].
    + rewrite length_app_string, length_slice_to, length_truncated; lia.
    + apply endswith_app.
    + reflexivity.
  - eexists. split; [reflexivity|]. split; [lia | intros _; reflexivity].
Qed.

(** ** Claims about the [Alarm] record *)

(** C2 (the code departs from it).  The claim: constructing an [Alarm] with
    [PerceivedSeverity.CLEARED] fails with an invalid-argument error.  The
    constructor stores the severity it is given without looking at it: for
    every identity, text and optional argument, the record it returns has
    severity [CLEARED] and reads as cleared. *)
Theorem Alarm_init_accepts_CLEARED :
  ∀ now alarm_id text timestamp impacted related root_cause,
    let alarm :=
      Alarm__init__ now alarm_id CLEARED text timestamp impacted related
        root_cause in
    severity alarm = CLEARED ∧ cleared alarm = true ∧ ncs_severity alarm = 1%Z.
Proof. intros. repeat split. Qed.

(** C3 (the code departs from it at construction).  The claim: a text of more
    than 1024 characters, given at construction or assigned, is stored as
    exactly 1024 characters ending with the marker.  The constructor stores
    the text it is given as it is, whatever its length: a text of 1025
    characters stays 1025 characters long and does not end with the marker.
    (The assignment path does cut: [alarm_text_setter_truncates].) *)
Theorem Alarm_init_keeps_long_text :
  (∀ now alarm_id sev text timestamp impacted related root_cause,
     alarm_text
       (Alarm__init__ now alarm_id sev text timestamp impacted related
          root_cause) = text) ∧
  let alarm :=
    Alarm__init__ "2024-05-01T10:00:00" c0 MINOR (repeat_char "a" 1025)
      None None None None in
  String.length (alarm_text alarm) = 1025%nat ∧
  endswith (alarm_text alarm) truncated = false.
Proof. split; [reflexivity | split; vm_compute; reflexivity]. Qed.

(** What the two setters do: assigning [PerceivedSeverity.CLEARED] to the
    [severity] property raises [ValueError] and leaves the record as it was;
    assigning any other member succeeds and stores it, so a successful
    assignment never leaves the severity at [CLEARED]; [alarm.cleared = True]
    sets it. *)
Theorem severity_setter_rejects_CLEARED (self : Alarm) (v : PerceivedSeverity) :
  severity_setter CLEARED self =
    (self, Raise (ValueError "Use Alarm.cleared property to clear the alarm")) ∧
  (v ≠ CLEARED →
     severity_setter v self = (with__severity v self, Ok tt) ∧
     severity (with__severity v self) = v) ∧
  (∀ self', severity_setter v self = (self', Ok tt) → severity self' ≠ CLEARED) ∧
  (cleared_setter true self = (with__severity CLEARED self, Ok tt) ∧
   severity (with__severity CLEARED self) = CLEARED) ∧
  cleared_setter false self = (self, Ok tt).
Proof.
  repeat split.
  - unfold severity_setter. rewrite py_eq_members.
    rewrite bool_decide_eq_false_2 by assumption. reflexivity.
  - unfold severity_setter. rewrite py_eq_members.
    intros self'. case_bool_decide as Hv; unfold raise, modify; intros Heq;
      [discriminate Heq | injection Heq as <-].
    rewrite severity_with. exact Hv.
Qed.

Lemma severity_setter_rejects_CLEARED_witness :
  severity_setter MAJOR link_down = (with__severity MAJOR link_down, Ok tt) ∧
  severity (with__severity MAJOR link_down) = MAJOR.
Proof.
  apply (proj1 (proj2 (severity_setter_rejects_CLEARED link_down MAJOR))).
  discriminate.
Defined.

(** C8 (the code departs from it).  The claim: assigning
    [PerceivedSeverity.CLEARED] to the [severity] property raises
    [ValueError] and leaves the severity as it was, any other member is
    accepted, and so the [cleared] property is the only way the severity
    property can come to read [CLEARED].  The setter does refuse [CLEARED] and
    accept every other member, but the severity property of an alarm that was
    built with [CLEARED] reads [CLEARED] although nothing was ever assigned to
    its [cleared] property: the constructor stores a severity that the
    record's own setter refuses. *)
Theorem severity_is_CLEARED_without_cleared_flag :
  ∀ now alarm_id text timestamp impacted related root_cause,
    let alarm :=
      Alarm__init__ now alarm_id CLEARED text timestamp impacted related
        root_cause in
    severity alarm = CLEARED ∧
    severity_setter (severity alarm) alarm =
      (alarm, Raise (ValueError "Use Alarm.cleared property to clear the alarm")) ∧
    (∀ v, v ≠ CLEARED →
       severity_setter v alarm = (with__severity v alarm, Ok tt) ∧
       severity (with__severity v alarm) = v) ∧
    (∀ v alarm', severity_setter v alarm = (alarm', Ok tt) →
       severity alarm' ≠ CLEARED).
Proof.
  intros now alarm_id text timestamp impacted related root_cause alarm.
  split; [reflexivity|]. split; [reflexivity|]. split.
  - intros v Hv. unfold severity_setter. rewrite py_eq_members.
    by rewrite bool_decide_eq_false_2.
  - intros v alarm'. unfold severity_setter. rewrite py_eq_members.
    case_bool_decide as Hv; unfold raise, modify; intros Heq;
      [discriminate Heq | injection Heq as <-].
    by rewrite severity_with.
Qed.

(** ** The history list and the related-alarm list *)

Section KeyedLists.

Lemma status_change_update_absent t f (l : list ncs.status_change_entry) :
  existsb (ncs.has_event_time t) l = false → ncs.status_change_update t f l = l.
Proof.
  unfold ncs.status_change_update.
  induction l as [|sc l IH]; simpl; [reflexivity|].
  intros [Hsc Hl]%orb_false_elim. rewrite Hsc, IH; auto.
Qed.

(** A submission at an event time the history does not hold yet appends one
    record; at an event time it holds, the record under that time is
    overwritten and none is added. *)
Lemma record_status_change_new t sev text l :
  existsb (ncs.has_event_time t) l = false →
  record_status_change t sev text l =
    (l ++ [ncs.mk_status_change t (Some sev) (Some text)])%list.
Proof.
  intros Hnew. unfold record_status_change, ncs.status_change_create.
  rewrite Hnew. unfold ncs.status_change_update at 2. rewrite map_app.
  fold (ncs.status_change_update t (ncs.set_perceived_severity sev) l).
  rewrite (status_change_update_absent _ _ _ Hnew).
  unfold ncs.status_change_update at 1. rewrite map_app.
  fold (ncs.status_change_update t (ncs.set_alarm_text text) l).
  rewrite (status_change_update_absent _ _ _ Hnew).
  f_equal. unfold ncs.has_event_time. cbn [map ncs.event_time].
  rewrite (bool_decide_eq_true_2 (t = t)) by reflexivity.
  cbn [ncs.set_perceived_severity ncs.event_time].
  rewrite (bool_decide_eq_true_2 (t = t)) by reflexivity. reflexivity.
Qed.

Lemma record_status_change_known t sev text l :
  existsb (ncs.has_event_time t) l = true →
  length (record_status_change t sev text l) = length l ∧
  map ncs.event_time (record_status_change t sev text l) = map ncs.event_time l ∧
  Forall (λ sc, ncs.event_time sc = t →
                ncs.perceived_severity sc = Some sev ∧
                ncs.alarm_text sc = Some text)
         (record_status_change t sev text l).
Proof.
  intros Hold. unfold record_status_change, ncs.status_change_create.
  rewrite Hold. clear Hold. unfold ncs.status_change_update.
  rewrite !length_map, !map_map. split; [reflexivity|]. split.
  - apply map_ext. intros sc. unfold ncs.has_event_time.
    repeat (case_bool_decide; simpl in * ); reflexivity.
  - rewrite Forall_map. apply Forall_forall. intros sc _. simpl.
    unfold ncs.has_event_time.
    repeat (case_bool_decide; simpl in * ); intros; try done.
Qed.

Lemma related_alarms_create_elem k (l : list ncs.key) :
  k ∈ ncs.related_alarms_create k l.
Proof.
  unfold ncs.related_alarms_create. case_bool_decide; [done|].
  apply elem_of_app. right. apply list_elem_of_singleton. reflexivity.
Qed.

Lemma related_alarms_create_mono k k' (l : list ncs.key) :
  k' ∈ l → k' ∈ ncs.related_alarms_create k l.
Proof.
  unfold ncs.related_alarms_create. case_bool_decide; [done|].
  intros. apply elem_of_app. by left.
Qed.

Lemma related_alarms_loop (ras : list AlarmId.t) (l : list ncs.key) k :
  (k ∈ l ∨ ∃ ra, ra ∈ ras ∧ related_alarm_key ra = k) →
  k ∈ foldl (λ l ra, ncs.related_alarms_create (related_alarm_key ra) l) l ras.
Proof.
  revert l. induction ras as [|ra ras IH]; intros l [Hl | (ra' & Hra & <-)];
    simpl; try done.
  - by apply elem_of_nil in Hra.
  - apply IH. left. by apply related_alarms_create_mono.
  - apply elem_of_cons in Hra as [-> | Hra].
    + apply IH. left. apply related_alarms_create_elem.
    + apply IH. right. eauto.
Qed.

End KeyedLists.

(** ** What the assignments of lines 209-225 leave in the entry *)

Section WriteAlarm.

Variables (alarm : Alarm) (al : ncs.alarm_entry).

Lemma write_alarm_is_cleared :
  ncs.is_cleared (write_alarm alarm al) = Some (cleared alarm).
Proof. unfold write_alarm. by destruct (related_alarms alarm) as [[|? ?]|]. Qed.

Lemma write_alarm_last_alarm_text :
  ncs.last_alarm_text (write_alarm alarm al) = Some (alarm_text alarm).
Proof. unfold write_alarm. by destruct (related_alarms alarm) as [[|? ?]|]. Qed.

(** The guard of line 211 compares an [int] with an [Enum] member, so it
    holds for every alarm and the severity leaf is always written. *)
Lemma write_alarm_last_perceived_severity :
  ncs.last_perceived_severity (write_alarm alarm al) = Some (ncs_severity alarm).
Proof.
  unfold write_alarm. rewrite py_ne_int_member.
  by destruct (related_alarms alarm) as [[|? ?]|].
Qed.

Lemma write_alarm_last_status_change :
  ncs.last_status_change (write_alarm alarm al) = Some (timestamp alarm).
Proof. unfold write_alarm. by destruct (related_alarms alarm) as [[|? ?]|]. Qed.

Lemma write_alarm_impacted_objects :
  ncs.impacted_objects (write_alarm alarm al) = impacted_objects alarm.
Proof. unfold write_alarm. by destruct (related_alarms alarm) as [[|? ?]|]. Qed.

Lemma write_alarm_root_cause_objects :
  ncs.root_cause_objects (write_alarm alarm al) = root_cause_objects alarm.
Proof. unfold write_alarm. by destruct (related_alarms alarm) as [[|? ?]|]. Qed.

Lemma write_alarm_status_change :
  ncs.status_change (write_alarm alarm al) =
    record_status_change (timestamp alarm) (ncs_severity alarm)
      (alarm_text alarm) (ncs.status_change al).
Proof. unfold write_alarm. by destruct (related_alarms alarm) as [[|? ?]|]. Qed.

Lemma write_alarm_related_alarms (ras : list AlarmId.t) (ra : AlarmId.t) :
  related_alarms alarm = Some ras → ra ∈ ras →
  related_alarm_key ra ∈ ncs.related_alarms (write_alarm alarm al).
Proof.
  intros Hras Hra. unfold write_alarm. rewrite Hras.
  destruct ras as [|ra0 ras]; [by apply elem_of_nil in Hra|].
  cbn [ncs.related_alarms ncs.with_status_change ncs.with_related_alarms].
  apply related_alarms_loop. right. eauto.
Qed.

(** After the assignments the test of lines 203-206 finds nothing changed. *)
Lemma nothing_changed_after_write :
  nothing_changed (write_alarm alarm al) alarm = Ok true.
Proof.
  unfold nothing_changed.
  rewrite write_alarm_is_cleared, write_alarm_last_perceived_severity,
    write_alarm_last_alarm_text.
  cbn [ncs.read_bool ncs.read_str ncs.enum_value py_eq].
  rewrite !bool_decide_eq_true_2 by reflexivity.
  by destruct (cleared alarm).
Qed.

End WriteAlarm.

(** ** The datastore after a submission *)

Lemma submit_alarm_other_key (alarm : Alarm) (db : ncs.alarm_list) (k : ncs.key) :
  k ≠ own_key alarm → (submit_alarm alarm db).1 !! k = db !! k.
Proof.
  intros Hk. rewrite submit_alarm_cases.
  destruct (db !! own_key alarm) as [al|].
  - destruct (nothing_changed al alarm) as [[]|e]; simpl; try done.
    by rewrite lookup_insert_ne.
  - destruct (cleared alarm); simpl; [done|]. by rewrite lookup_insert_ne.
Qed.

(** A cleared alarm never raises, and on an entry that is cleared it changes
    nothing. *)
Lemma nothing_changed_cleared (alarm : Alarm) (al : ncs.alarm_entry) :
  cleared alarm = true →
  nothing_changed al alarm = Ok (bool_decide (ncs.is_cleared al = Some true)).
Proof.
  intros Hc. unfold nothing_changed. rewrite Hc.
  destruct (ncs.is_cleared al) as [[]|]; reflexivity.
Qed.

(** ** Claims about [submit_alarm] *)

(** C1 (the code departs from it).  The claim: a submission with
    [cleared == true] leaves the entry's [last_perceived_severity] as it was.
    The guard of line 211 compares the numeric [ncs_severity] with the member
    [PerceivedSeverity.CLEARED], which are never equal, so the leaf is written
    for a cleared alarm too, with the code 1: clearing an entry that is not
    cleared always leaves the code 1 in it, and raising the example alarm
    (severity code 3) and then clearing it does so. *)
Theorem clearing_overwrites_last_severity :
  (∀ alarm db al,
     db !! own_key alarm = Some al →
     ncs.is_cleared al = Some false →
     cleared alarm = true →
     submit_alarm alarm db = (<[own_key alarm := write_alarm alarm al]> db, Ok tt) ∧
     ncs.last_perceived_severity (write_alarm alarm al) = Some 1%Z) ∧
  cleared link_down_cleared = true ∧
  ncs.last_perceived_severity <$> db_raised !! c0_key = Some (Some 3%Z) ∧
  (submit_alarm link_down_cleared db_raised).2 = Ok tt ∧
  ncs.last_perceived_severity
    <$> (submit_alarm link_down_cleared db_raised).1 !! c0_key
  = Some (Some 1%Z).
Proof.
  split.
  - intros alarm db al Hk Hcl Hc. split.
    + by rewrite submit_alarm_cases, Hk, nothing_changed_cleared, Hcl.
    + by rewrite write_alarm_last_perceived_severity, ncs_severity_cleared.
  - repeat split; vm_compute; reflexivity.
Qed.

(** C4.  A cleared alarm whose identity has no entry in the alarm list is a
    no-op: [submit_alarm] returns normally and the datastore is as before (no
    entry created, nothing written). *)
Theorem submit_cleared_without_entry_is_noop (alarm : Alarm) (db : ncs.alarm_list) :
  cleared alarm = true → db !! own_key alarm = None →
  submit_alarm alarm db = (db, Ok tt).
Proof. intros Hc Hk. by rewrite submit_alarm_cases, Hk, Hc. Qed.

Lemma submit_cleared_without_entry_is_noop_witness :
  submit_alarm link_down_cleared ∅ = (∅, Ok tt).
Proof.
  apply (submit_cleared_without_entry_is_noop link_down_cleared ∅).
  - reflexivity.
  - apply lookup_empty.
Defined.

(** C5.  When the entry's [is_cleared] equals the alarm's [cleared] and either
    the alarm is cleared or the entry's last severity and text equal the
    alarm's severity code and text, [submit_alarm] returns with the datastore
    as before (no leaf written, no history record added); and submitting an
    alarm a second time, right after the first, changes nothing more: it
    ends in the same datastore with the same outcome. *)
Theorem submit_unchanged_is_noop (alarm : Alarm) (db : ncs.alarm_list) :
  (∀ al, db !! own_key alarm = Some al →
     ncs.is_cleared al = Some (cleared alarm) →
     cleared alarm = true ∨
       (ncs.last_perceived_severity al = Some (ncs_severity alarm) ∧
        ncs.last_alarm_text al = Some (alarm_text alarm)) →
     submit_alarm alarm db = (db, Ok tt)) ∧
  submit_alarm alarm (submit_alarm alarm db).1 = submit_alarm alarm db.
Proof.
  split.
  - intros al Hk Hcl Hsame. rewrite submit_alarm_cases, Hk.
    unfold nothing_changed. rewrite Hcl. cbn [ncs.read_bool py_eq].
    rewrite bool_decide_eq_true_2 by reflexivity.
    destruct Hsame as [-> | [-> ->]]; [reflexivity|].
    cbn [ncs.enum_value ncs.read_str py_eq].
    rewrite !bool_decide_eq_true_2 by reflexivity.
    by destruct (cleared alarm).
  - rewrite (submit_alarm_cases alarm db).
    destruct (db !! own_key alarm) as [al|] eqn:Hk.
    + destruct (nothing_changed al alarm) as [[]|e] eqn:Hn; simpl.
      * by rewrite submit_alarm_cases, Hk, Hn.
      * by rewrite submit_alarm_cases, lookup_insert_eq,
          nothing_changed_after_write.
      * by rewrite submit_alarm_cases, Hk, Hn.
    + destruct (cleared alarm) eqn:Hc; simpl.
      * by rewrite submit_alarm_cases, Hk, Hc.
      * by rewrite submit_alarm_cases, lookup_insert_eq,
          nothing_changed_after_write.
Qed.

Lemma submit_unchanged_is_noop_witness :
  submit_alarm link_down db_raised = (db_raised, Ok tt).
Proof.
  apply (proj1 (submit_unchanged_is_noop link_down db_raised) al_raised).
  - vm_compute. reflexivity.
  - reflexivity.
  - right. split; reflexivity.
Defined.

(** C6, as first stated, fails: an alarm object that is submitted again after
    its entry was cleared carries the event time of its first submission, the
    history already has a record under that time, and [status_change.create]
    returns that record: the update is applied but the history keeps its two
    records. *)
Lemma resubmitted_alarm_adds_no_history_record :
  db_cleared !! c0_key = Some al_cleared ∧
  own_key link_down = c0_key ∧
  ncs.is_cleared al_cleared = Some true ∧
  cleared link_down = false ∧
  length (ncs.status_change al_cleared) = 2%nat ∧
  (submit_alarm link_down db_cleared).2 = Ok tt ∧
  (λ al, length (ncs.status_change al))
    <$> (submit_alarm link_down db_cleared).1 !! c0_key = Some 2%nat.
Proof. repeat split; vm_compute; reflexivity. Qed.

(** C6.  For an entry with [is_cleared] true and an alarm that is not cleared,
    [submit_alarm] always applies an update, also when the alarm's text and
    severity code equal the stored ones: the datastore changes, the leaves
    hold the alarm's values, and the history holds the alarm's severity code
    and text under the alarm's timestamp -- as one appended record when the
    history had none under that timestamp, and in the record already there
    (none appended) otherwise. *)
Theorem submit_after_clear_is_never_suppressed
    (alarm : Alarm) (db : ncs.alarm_list) (al : ncs.alarm_entry) :
  db !! own_key alarm = Some al →
  ncs.is_cleared al = Some true →
  cleared alarm = false →
  let al' := write_alarm alarm al in
  let known := existsb (ncs.has_event_time (timestamp alarm)) (ncs.status_change al) in
  submit_alarm alarm db = (<[own_key alarm := al']> db, Ok tt) ∧
  (submit_alarm alarm db).1 !! own_key alarm = Some al' ∧
  al' ≠ al ∧
  ncs.is_cleared al' = Some false ∧
  ncs.last_alarm_text al' = Some (alarm_text alarm) ∧
  ncs.last_perceived_severity al' = Some (ncs_severity alarm) ∧
  ncs.last_status_change al' = Some (timestamp alarm) ∧
  ncs.impacted_objects al' = impacted_objects alarm ∧
  ncs.root_cause_objects al' = root_cause_objects alarm ∧
  (known = false →
     ncs.status_change al' =
       (ncs.status_change al
        ++ [ncs.mk_status_change (timestamp alarm) (Some (ncs_severity alarm))
              (Some (alarm_text alarm))])%list) ∧
  (known = true →
     length (ncs.status_change al') = length (ncs.status_change al) ∧
     map ncs.event_time (ncs.status_change al')
       = map ncs.event_time (ncs.status_change al) ∧
     Forall (λ sc, ncs.event_time sc = timestamp alarm →
                   ncs.perceived_severity sc = Some (ncs_severity alarm) ∧
                   ncs.alarm_text sc = Some (alarm_text alarm))
            (ncs.status_change al')).
Proof.
  intros Hk Hcl Hc al' known.
  assert (Hrun : submit_alarm alarm db = (<[own_key alarm := al']> db, Ok tt)).
  { rewrite submit_alarm_cases, Hk. unfold nothing_changed.
    rewrite Hcl, Hc. reflexivity. }
  assert (Hcl' : ncs.is_cleared al' = Some false).
  { unfold al'. by rewrite write_alarm_is_cleared, Hc. }
  split; [exact Hrun|]. split; [by rewrite Hrun; apply lookup_insert_eq|].
  split; [intros Heq; rewrite Heq in Hcl'; congruence|].
  split; [exact Hcl'|].
  split; [apply write_alarm_last_alarm_text|].
  split; [apply write_alarm_last_perceived_severity|].
  split; [apply write_alarm_last_status_change|].
  split; [apply write_alarm_impacted_objects|].
  split; [apply write_alarm_root_cause_objects|].
  unfold al'. rewrite write_alarm_status_change. split.
  - apply record_status_change_new.
  - apply record_status_change_known.
Qed.

Lemma submit_after_clear_is_never_suppressed_witness :
  submit_alarm link_down db_cleared
    = (<[own_key link_down := write_alarm link_down al_cleared]> db_cleared, Ok tt).
Proof.
  apply (submit_after_clear_is_never_suppressed link_down db_cleared al_cleared).
  - vm_compute. reflexivity.
  - reflexivity.
  - reflexivity.
Defined.

(** ** Claims about [purge_alarm] *)

(** [purge_alarm] read off as one case analysis on the datastore. *)
Lemma purge_alarm_cases (alarm_id : AlarmId.t) (db : ncs.alarm_list) :
  purge_alarm alarm_id db =
    let k := alarm_key (AlarmId.device alarm_id) (AlarmId.type alarm_id)
               (AlarmId.managed_object alarm_id)
               (AlarmId.specific_problem alarm_id) in
    match db !! k with
    | Some _ => (delete k db, Ok tt)
    | None => (db, Ok tt)
    end.
Proof.
  unfold purge_alarm, ncs.with_write_trans, try_except_KeyError_pass,
    ncs.on_pending, ncs.del, ncs.apply, modify, mbind, Py_bind.
  cbn [ncs.pending ncs.cdb].
  by destruct (db !! alarm_key _ _ _ _).
Qed.

(** C7.  [purge_alarm] never raises; when the identity has no entry the
    datastore is as before, when it has one the entry is removed; either way
    a lookup of the identity afterwards finds nothing, and no other entry is
    touched. *)
Theorem purge_alarm_never_raises (alarm_id : AlarmId.t) (db : ncs.alarm_list) :
  let k := alarm_key (AlarmId.device alarm_id) (AlarmId.type alarm_id)
             (AlarmId.managed_object alarm_id)
             (AlarmId.specific_problem alarm_id) in
  (purge_alarm alarm_id db).2 = Ok tt ∧
  (db !! k = None → (purge_alarm alarm_id db).1 = db) ∧
  (is_Some (db !! k) → (purge_alarm alarm_id db).1 = delete k db) ∧
  (purge_alarm alarm_id db).1 !! k = None ∧
  (∀ k', k' ≠ k → (purge_alarm alarm_id db).1 !! k' = db !! k').
Proof.
  intros k. rewrite purge_alarm_cases. cbv zeta. subst k.
  set (k := alarm_key _ _ _ _).
  destruct (db !! k) as [al|] eqn:Hk; cbn [fst snd].
  - split; [reflexivity|]. split; [discriminate|]. split; [reflexivity|].
    split; [apply lookup_delete_eq|].
    intros k' Hk'. by apply lookup_delete_ne.
  - split; [reflexivity|]. split; [reflexivity|].
    split; [by intros [? ?]|]. split; [exact Hk | reflexivity].
Qed.

Lemma purge_alarm_never_raises_witness :
  (purge_alarm c0 db_raised).1 = delete c0_key db_raised
  ∧ (purge_alarm c0 ∅).1 = ∅.
Proof.
  split.
  - apply (proj1 (proj2 (proj2 (purge_alarm_never_raises c0 db_raised)))).
    exists al_raised. vm_compute. reflexivity.
  - apply (proj1 (proj2 (purge_alarm_never_raises c0 ∅))).
    apply lookup_empty.
Defined.

(** ** Cleared entries and related alarms *)

Lemma submit_cleared_keeps_cleared_entry
    (alarm : Alarm) (db : ncs.alarm_list) (k : ncs.key) (al : ncs.alarm_entry) :
  cleared alarm = true → db !! k = Some al → ncs.is_cleared al = Some true →
  (submit_alarm alarm db).1 !! k = Some al.
Proof.
  intros Hc Hk Hcl. destruct (decide (k = own_key alarm)) as [-> | Hne].
  - rewrite submit_alarm_cases, Hk, nothing_changed_cleared, Hcl by done.
    exact Hk.
  - by rewrite submit_alarm_other_key.
Qed.

(** C9.  On an entry with [is_cleared] true a cleared alarm is a no-op
    whatever its text; so no sequence of cleared submissions (for this or any
    other identity) changes the entry, text and history included, and a
    submission that does change it is one for this identity with a
    non-cleared severity. *)
Theorem cleared_entry_ignores_cleared_submissions
    (db : ncs.alarm_list) (k : ncs.key) (al : ncs.alarm_entry) :
  db !! k = Some al →
  ncs.is_cleared al = Some true →
  (∀ alarm, own_key alarm = k → cleared alarm = true →
     submit_alarm alarm db = (db, Ok tt)) ∧
  (∀ alarms, Forall (λ alarm, cleared alarm = true) alarms →
     submit_all alarms db !! k = Some al) ∧
  (∀ alarm, (submit_alarm alarm db).1 !! k ≠ Some al →
     own_key alarm = k ∧ cleared alarm = false).
Proof.
  intros Hk Hcl. split; [| split].
  - intros alarm <- Hc.
    by rewrite submit_alarm_cases, Hk, nothing_changed_cleared, Hcl.
  - intros alarms Hall. revert db Hk.
    induction Hall as [|alarm alarms Hc _ IH]; intros db Hk; [exact Hk|].
    apply IH. by apply submit_cleared_keeps_cleared_entry.
  - intros alarm Hchanged.
    destruct (decide (k = own_key alarm)) as [-> | Hne].
    + split; [reflexivity|]. destruct (cleared alarm) eqn:Hc; [|reflexivity].
      exfalso. apply Hchanged. by apply submit_cleared_keeps_cleared_entry.
    + exfalso. apply Hchanged. by rewrite submit_alarm_other_key.
Qed.

Lemma cleared_entry_ignores_cleared_submissions_witness :
  submit_alarm (with__alarm_text "all good" link_down_cleared) db_cleared
    = (db_cleared, Ok tt).
Proof.
  apply (proj1 (cleared_entry_ignores_cleared_submissions
                  db_cleared c0_key al_cleared
                  ltac:(vm_compute; reflexivity) eq_refl)).
  - reflexivity.
  - reflexivity.
Defined.

(** C10.  Whenever [submit_alarm] writes, the entry it writes is keyed by the
    alarm's [specific_problem or ''] ([None] and [''] both give ['']), while
    each related alarm is entered under its [specific_problem] as it is; a
    related [AlarmId] without specific problem is therefore entered under a
    key other than the one its own alarm-list entry would have. *)
Theorem related_alarm_key_is_not_normalized
    (alarm : Alarm) (db : ncs.alarm_list) (ras : list AlarmId.t) (ra : AlarmId.t) :
  (submit_alarm alarm db).1 ≠ db →
  related_alarms alarm = Some ras →
  ra ∈ ras →
  (specific_problem alarm = None ∨ specific_problem alarm = Some "" →
     py_or (specific_problem alarm) "" = "") ∧
  ∃ al',
    (submit_alarm alarm db).1
      !! (device alarm, type alarm, managed_object alarm,
          Some (py_or (specific_problem alarm) "")) = Some al' ∧
    (AlarmId.device ra, AlarmId.type ra, AlarmId.managed_object ra,
     AlarmId.specific_problem ra) ∈ ncs.related_alarms al' ∧
    (AlarmId.specific_problem ra = None →
       ∀ now sev text ts impacted related root_cause,
         let own := own_key (Alarm__init__ now ra sev text ts impacted related
                               root_cause) in
         own = (AlarmId.device ra, AlarmId.type ra, AlarmId.managed_object ra,
                Some "") ∧
         related_alarm_key ra ≠ own).
Proof.
  intros Hwrote Hras Hra. split.
  { by intros [-> | ->]. }
  exists (write_alarm alarm (default ncs.new_alarm (db !! own_key alarm))).
  split; [| split].
  - revert Hwrote. rewrite submit_alarm_cases.
    fold (own_key alarm).
    destruct (db !! own_key alarm) as [al|]; simpl.
    + destruct (nothing_changed al alarm) as [[]|e]; simpl; try done.
      intros _. apply lookup_insert_eq.
    + destruct (cleared alarm); simpl; [done|].
      intros _. apply lookup_insert_eq.
  - by apply (write_alarm_related_alarms _ _ ras).
  - intros Hnone now sev text ts impacted related root_cause own.
    unfold own, own_key, alarm_key, related_alarm_key. simpl.
    rewrite Hnone. split; [reflexivity | congruence].
Qed.

Lemma related_alarm_key_is_not_normalized_witness :
  ∃ al',
    (submit_alarm link_down_related ∅).1 !! c0_key = Some al' ∧
    ("c1", "connection-failure", "/devices/device[name='c1']", None)
      ∈ ncs.related_alarms al'.
Proof.
  destruct (related_alarm_key_is_not_normalized link_down_related ∅ [c1] c1)
    as (_ & al' & Hal' & Hin & _).
  - intros H. apply (f_equal (λ db : ncs.alarm_list, db !! c0_key)) in H.
    vm_compute in H. discriminate H.
  - reflexivity.
  - constructor.
  - exists al'. split; [exact Hal' | exact Hin].
Defined.

(** * Further properties of the [Alarm] record *)

Lemma slice_to_app_prefix (n : nat) (v t : string) :
  (n ≤ String.length v)%nat → slice_to n (slice_to n v +:+ t) = slice_to n v.
Proof.
  revert v. induction n as [|n IH]; intros [|c v] Hn; simpl in *;
    try reflexivity; try lia.
  rewrite IH; [reflexivity | lia].
Qed.

Lemma with__alarm_text_same (self : Alarm) :
  with__alarm_text (alarm_text self) self = self.
Proof. by destruct self. Qed.

(** X1.  The numeric codes of the six severities lie between 1 and 6 and are
    pairwise distinct, and an alarm has the code 1 exactly when it is
    cleared. *)
Theorem severity_codes_distinct (m n : PerceivedSeverity) (self : Alarm) :
  (1 ≤ value m ≤ 6)%Z ∧
  (value m = value n ↔ m = n) ∧
  (ncs_severity self = 1%Z ↔ cleared self = true).
Proof.
  split; [destruct m; simpl; lia|]. split.
  - split; [| by intros ->]. destruct m, n; simpl; intros; done.
  - rewrite cleared_iff. unfold ncs_severity.
    destruct (severity self); simpl; split; intros; done.
Qed.

(** X2.  Assigning the [alarm_text] property never raises and touches no
    other attribute; the stored text has at most 1024 characters and agrees
    with the assigned one on the first 1009; it is the assigned text exactly
    when that has at most 1024 characters, and otherwise it is 1024 characters
    long and ends with the marker. *)
Theorem alarm_text_setter_caps_length (value : string) (self : Alarm) :
  ∃ stored,
    alarm_text_setter value self = (with__alarm_text stored self, Ok tt) ∧
    (String.length stored ≤ 1024)%nat ∧
    slice_to 1009 stored = slice_to 1009 value ∧
    (stored = value ↔ (String.length value ≤ 1024)%nat) ∧
    ((1024 < String.length value)%nat →
       String.length stored = 1024%nat ∧ endswith stored truncated = true).
Proof.
  unfold alarm_text_setter, max_length. rewrite length_truncated.
  case_bool_decide as Hlen.
  - eexists. split; [reflexivity|].
    assert (Hstored :
      String.length (slice_to (1024 - 15) value +:+ truncated) = 1024%nat).
    { rewrite length_app_string, length_slice_to, length_truncated; lia. }
    split; [lia|]. split; [apply slice_to_app_prefix; lia|].
    split; [| intros _; split; [exact Hstored | apply endswith_app]].
    split; [| lia]. intros Heq. rewrite Heq in Hstored. lia.
  - eexists. split; [reflexivity|]. split; [lia|]. split; [reflexivity|].
    split; [split; [lia | reflexivity] | lia].
Qed.

(** X3.  Assigning to [alarm_text] the text the record already stores after
    an assignment changes nothing: a text that was cut is not cut again. *)
Theorem alarm_text_setter_idempotent (value : string) (self : Alarm) :
  let self' := (alarm_text_setter value self).1 in
  alarm_text_setter (alarm_text self') self' = (self', Ok tt).
Proof.
  destruct (alarm_text_setter_caps_length value self)
    as (stored & -> & Hlen & _).
  cbn [fst]. rewrite alarm_text_with.
  unfold alarm_text_setter, max_length.
  rewrite bool_decide_eq_false_2 by lia.
  unfold modify. by rewrite <- (alarm_text_with stored self) at 1;
    rewrite with__alarm_text_same.
Qed.

(** X4.  Once an alarm is cleared no assignment to its [cleared] property,
    true or false, makes it uncleared again; assigning a severity other than
    [CLEARED] does. *)
Theorem cleared_setter_never_unclears (self : Alarm) (values : list bool) :
  cleared self = true →
  cleared (foldl (λ alarm v, (cleared_setter v alarm).1) self values) = true ∧
  (∀ v, v ≠ CLEARED →
     ∃ self', severity_setter v self = (self', Ok tt) ∧ cleared self' = false).
Proof.
  intros Hc. split.
  - revert self Hc. induction values as [|v values IH]; intros self Hc;
      [exact Hc|].
    simpl. apply IH. by destruct v.
  - intros v Hv. exists (with__severity v self). split.
    + unfold severity_setter. rewrite py_eq_members.
      by rewrite bool_decide_eq_false_2.
    + unfold cleared. cbn [with__severity _severity]. rewrite py_eq_members.
      by apply bool_decide_eq_false_2.
Qed.

Lemma cleared_setter_never_unclears_witness :
  cleared (foldl (λ alarm v, (cleared_setter v alarm).1) link_down_cleared
             [false; true; false]) = true.
Proof.
  apply (cleared_setter_never_unclears link_down_cleared [false; true; false]).
  reflexivity.
Defined.

(** X5.  The constructor copies the four identity fields, so the alarm's own
    list key is the key of its [AlarmId]; a timestamp that is given and not
    empty is kept, and a missing or empty one is replaced by the current
    time. *)
Theorem Alarm_init_identity_and_timestamp
    (now : string) (alarm_id : AlarmId.t) (sev : PerceivedSeverity)
    (text : string) (ts : option string)
    (impacted : option (list string)) (related : option (list AlarmId.t))
    (root_cause : option (list string)) :
  let alarm :=
    Alarm__init__ now alarm_id sev text ts impacted related root_cause in
  own_key alarm = id_key alarm_id ∧
  timestamp alarm =
    (if bool_decide (ts = None ∨ ts = Some "") then now else default now ts) ∧
  (timestamp alarm ≠ now → ts = Some (timestamp alarm)).
Proof.
  simpl. split; [reflexivity|].
  destruct ts as [[|c t]|]; simpl; split; done.
Qed.

(** X6.  Two identities address the same alarm-list entry exactly when they
    agree on device, type and managed object and their specific problems
    agree once a missing one is read as the empty string; in particular
    [None] and [''] address the same entry. *)
Theorem id_key_eq_iff (i j : AlarmId.t) :
  (id_key i = id_key j ↔
     AlarmId.device i = AlarmId.device j ∧
     AlarmId.type i = AlarmId.type j ∧
     AlarmId.managed_object i = AlarmId.managed_object j ∧
     py_or (AlarmId.specific_problem i) "" = py_or (AlarmId.specific_problem j) "") ∧
  id_key (AlarmId.mk (AlarmId.device i) (AlarmId.managed_object i)
            (AlarmId.type i) None)
  = id_key (AlarmId.mk (AlarmId.device i) (AlarmId.managed_object i)
              (AlarmId.type i) (Some "")).
Proof.
  split; [| reflexivity]. unfold id_key, alarm_key. split.
  - intros [= -> -> -> ->]. done.
  - intros (-> & -> & -> & ->). done.
Qed.

(** * Further properties of [submit_alarm] *)

Lemma submit_alarm_written (alarm : Alarm) (db : ncs.alarm_list) :
  submit_alarm alarm db =
    (match written_entry alarm (db !! own_key alarm) with
     | Some al' => <[own_key alarm := al']> db
     | None => db
     end,
     submit_result alarm (db !! own_key alarm)).
Proof.
  rewrite submit_alarm_cases. unfold written_entry, submit_result.
  destruct (db !! own_key alarm) as [al|].
  - by destruct (nothing_changed al alarm) as [[]|e].
  - by destruct (cleared alarm).
Qed.

(** The test of lines 203-206 looks at the alarm's severity and text only. *)
Lemma nothing_changed_ext (al : ncs.alarm_entry) (a b : Alarm) :
  severity a = severity b → alarm_text a = alarm_text b →
  nothing_changed al a = nothing_changed al b.
Proof.
  intros Hsev Htext. unfold nothing_changed, ncs_severity, cleared.
  rewrite Htext. unfold severity in *. by rewrite Hsev.
Qed.

Section History.

Variables (t : string) (sev : Z) (text : string).
Implicit Types l : list ncs.status_change_entry.

Lemma existsb_has_event_time l :
  existsb (ncs.has_event_time t) l = true ↔ t ∈ map ncs.event_time l.
Proof.
  induction l as [|sc l IH]; simpl.
  - split; [done | by intros ?%elem_of_nil].
  - rewrite orb_true_iff, elem_of_cons, IH. unfold ncs.has_event_time.
    rewrite bool_decide_eq_true.
    split; (intros [Heq | Hin]; [left; by symmetry | by right]).
Qed.

Lemma record_status_change_times l :
  map ncs.event_time (record_status_change t sev text l) =
    (map ncs.event_time l
     ++ if existsb (ncs.has_event_time t) l then [] else [t])%list.
Proof.
  destruct (existsb (ncs.has_event_time t) l) eqn:Hknown.
  - rewrite app_nil_r. by apply record_status_change_known.
  - rewrite record_status_change_new by done. by rewrite map_app.
Qed.

Lemma record_status_change_others l sc :
  sc ∈ l → ncs.event_time sc ≠ t → sc ∈ record_status_change t sev text l.
Proof.
  intros Hsc Hne.
  assert (Hupd : ∀ f l', sc ∈ l' → sc ∈ ncs.status_change_update t f l').
  { intros f l' Hin. unfold ncs.status_change_update.
    apply list_elem_of_In, in_map_iff. exists sc. split.
    - unfold ncs.has_event_time. by rewrite bool_decide_eq_false_2.
    - by apply list_elem_of_In. }
  unfold record_status_change. apply Hupd, Hupd.
  unfold ncs.status_change_create.
  destruct (existsb _ l); [done | apply elem_of_app; by left].
Qed.

Lemma record_status_change_holds l :
  ncs.mk_status_change t (Some sev) (Some text)
    ∈ record_status_change t sev text l.
Proof.
  destruct (existsb (ncs.has_event_time t) l) eqn:Hknown.
  - apply existsb_has_event_time, list_elem_of_In, in_map_iff in Hknown
      as (sc & Ht & Hsc).
    unfold record_status_change, ncs.status_change_create.
    rewrite (proj2 (existsb_has_event_time l)); last first.
    { apply list_elem_of_In, in_map_iff. eauto. }
    unfold ncs.status_change_update. rewrite map_map.
    apply list_elem_of_In, in_map_iff. exists sc. split; [| done].
    unfold ncs.has_event_time. rewrite (bool_decide_eq_true_2 _ Ht).
    cbn [ncs.set_perceived_severity ncs.event_time].
    rewrite (bool_decide_eq_true_2 _ Ht).
    unfold ncs.set_alarm_text. cbn. by rewrite Ht.
  - rewrite record_status_change_new by done.
    apply elem_of_app. right. by apply list_elem_of_singleton.
Qed.

Lemma record_status_change_NoDup l :
  NoDup (map ncs.event_time l) →
  NoDup (map ncs.event_time (record_status_change t sev text l)).
Proof.
  intros Hnd. rewrite record_status_change_times.
  destruct (existsb (ncs.has_event_time t) l) eqn:Hknown.
  - by rewrite app_nil_r.
  - apply NoDup_app. split; [done|]. split; [| apply NoDup_singleton].
    intros t' Ht' ->%list_elem_of_singleton.
    apply existsb_has_event_time in Ht'. congruence.
Qed.

End History.

Section RelatedAlarms.

Implicit Types (l : list ncs.key) (ras : list AlarmId.t).

Abbreviation related_loop keys alarm_ids :=
  (foldl (λ acc ra, ncs.related_alarms_create (related_alarm_key ra) acc)
         keys alarm_ids).

Lemma related_loop_prefix l ras : l `prefix_of` related_loop l ras.
Proof.
  revert l. induction ras as [|ra ras IH]; intros l; simpl; [done|].
  etrans; [| apply IH]. unfold ncs.related_alarms_create.
  case_bool_decide; [done | by apply prefix_app_r].
Qed.

Lemma related_loop_elem l ras k :
  k ∈ related_loop l ras ↔ k ∈ l ∨ ∃ ra, ra ∈ ras ∧ related_alarm_key ra = k.
Proof.
  split; [| apply related_alarms_loop].
  revert l. induction ras as [|ra ras IH]; intros l; simpl; [by left|].
  intros [Hk | (ra' & Hra' & <-)]%IH.
  - unfold ncs.related_alarms_create in Hk. case_bool_decide; [by left|].
    apply elem_of_app in Hk as [Hk | ->%list_elem_of_singleton]; [by left|].
    right. exists ra. split; [apply elem_of_cons; by left | done].
  - right. exists ra'. split; [apply elem_of_cons; by right | done].
Qed.

Lemma related_loop_NoDup l ras : NoDup l → NoDup (related_loop l ras).
Proof.
  revert l. induction ras as [|ra ras IH]; intros l Hnd; simpl; [done|].
  apply IH. unfold ncs.related_alarms_create. case_bool_decide; [done|].
  apply NoDup_app. split; [done|]. split; [| apply NoDup_singleton].
  by intros k Hk ->%list_elem_of_singleton.
Qed.

Lemma write_alarm_related_loop (alarm : Alarm) (al : ncs.alarm_entry) :
  ncs.related_alarms (write_alarm alarm al) =
    related_loop (ncs.related_alarms al) (default [] (related_alarms alarm)).
Proof. unfold write_alarm. by destruct (related_alarms alarm) as [[|? ?]|]. Qed.

End RelatedAlarms.

(** X7.  A submission touches no entry but the alarm's own: every other key
    reads as before; no entry is ever removed; and an entry appears under the
    alarm's key only if the alarm is not cleared. *)
Theorem submit_alarm_touches_own_entry_only (alarm : Alarm) (db : ncs.alarm_list) :
  (∀ k, k ≠ own_key alarm → (submit_alarm alarm db).1 !! k = db !! k) ∧
  (∀ k, is_Some (db !! k) → is_Some ((submit_alarm alarm db).1 !! k)) ∧
  (db !! own_key alarm = None →
   is_Some ((submit_alarm alarm db).1 !! own_key alarm) →
   cleared alarm = false).
Proof.
  rewrite submit_alarm_written. cbn [fst]. split; [| split].
  - intros k Hk. destruct (written_entry _ _); [| done].
    by rewrite lookup_insert_ne.
  - intros k Hk. destruct (written_entry _ _); [| done].
    destruct (decide (own_key alarm = k)) as [<- | Hne].
    + rewrite lookup_insert_eq. eauto.
    + by rewrite lookup_insert_ne.
  - intros Hnone. rewrite Hnone. unfold written_entry.
    destruct (cleared alarm); [| done].
    rewrite Hnone. by intros [? ?].
Qed.

Lemma submit_alarm_touches_own_entry_only_witness :
  (submit_alarm link_down_cleared db_raised).1 !! related_alarm_key c1
    = db_raised !! related_alarm_key c1.
Proof.
  apply (proj1 (submit_alarm_touches_own_entry_only link_down_cleared db_raised)).
  discriminate.
Defined.

(** X8.  A non-cleared alarm whose identity has no entry creates one, and
    returns normally: the entry is not cleared, carries the alarm's text,
    severity code, timestamp, impacted and root-cause objects, a history of
    exactly one record with the alarm's timestamp, code and text, and as
    related alarms exactly the keys of the alarm's related identities, each
    once. *)
Theorem submit_new_alarm_creates_entry (alarm : Alarm) (db : ncs.alarm_list) :
  db !! own_key alarm = None →
  cleared alarm = false →
  ∃ al,
    submit_alarm alarm db = (<[own_key alarm := al]> db, Ok tt) ∧
    ncs.is_cleared al = Some false ∧
    ncs.last_alarm_text al = Some (alarm_text alarm) ∧
    ncs.last_perceived_severity al = Some (ncs_severity alarm) ∧
    ncs.last_status_change al = Some (timestamp alarm) ∧
    ncs.impacted_objects al = impacted_objects alarm ∧
    ncs.root_cause_objects al = root_cause_objects alarm ∧
    ncs.status_change al =
      [ncs.mk_status_change (timestamp alarm) (Some (ncs_severity alarm))
         (Some (alarm_text alarm))] ∧
    NoDup (ncs.related_alarms al) ∧
    (∀ k, k ∈ ncs.related_alarms al ↔
          ∃ ra, ra ∈ default [] (related_alarms alarm) ∧ related_alarm_key ra = k).
Proof.
  intros Hnone Hc. exists (write_alarm alarm ncs.new_alarm).
  split; [by rewrite submit_alarm_cases, Hnone, Hc|].
  split; [by rewrite write_alarm_is_cleared, Hc|].
  split; [apply write_alarm_last_alarm_text|].
  split; [apply write_alarm_last_perceived_severity|].
  split; [apply write_alarm_last_status_change|].
  split; [apply write_alarm_impacted_objects|].
  split; [apply write_alarm_root_cause_objects|].
  split; [by rewrite write_alarm_status_change, record_status_change_new|].
  rewrite write_alarm_related_loop. split.
  - apply related_loop_NoDup. constructor.
  - intros k. rewrite related_loop_elem. split; [| by right].
    by intros [?%elem_of_nil | ?].
Qed.

Lemma submit_new_alarm_creates_entry_witness :
  ∃ al, submit_alarm link_down_related ∅ = (<[c0_key := al]> ∅, Ok tt) ∧
        ncs.related_alarms al = [related_alarm_key c1].
Proof.
  destruct (submit_new_alarm_creates_entry link_down_related ∅)
    as (al & Hrun & _).
  - apply lookup_empty.
  - reflexivity.
  - exists (write_alarm link_down_related ncs.new_alarm).
    split; reflexivity.
Defined.

Lemma nothing_changed_raises (al : ncs.alarm_entry) (alarm : Alarm) (e : exception) :
  nothing_changed al alarm = Raise e ↔
    ncs.is_cleared al = Some false ∧ cleared alarm = false ∧
    ncs.last_perceived_severity al = None ∧
    e = AttributeError "'NoneType' object has no attribute 'value'".
Proof.
  unfold nothing_changed.
  destruct (ncs.is_cleared al) as [[]|], (cleared alarm),
    (ncs.last_perceived_severity al) as [v|]; cbn;
    repeat case_bool_decide;
    (split; [intros Hr | intros (Hcl & Hc & Hsev & He)]);
    try discriminate; try done.
  - by injection Hr as <-.
  - by rewrite He.
Qed.

(** X9.  [submit_alarm] raises in one situation only: the entry exists and is
    not cleared, the alarm is not cleared, and the entry has no last perceived
    severity to compare with.  What it raises then is [AttributeError], and
    the datastore is left as it was. *)
Theorem submit_alarm_raises_iff (alarm : Alarm) (db : ncs.alarm_list) :
  ((∃ e, (submit_alarm alarm db).2 = Raise e) ↔
     ∃ al, db !! own_key alarm = Some al ∧
           ncs.is_cleared al = Some false ∧
           cleared alarm = false ∧
           ncs.last_perceived_severity al = None) ∧
  (∀ e, (submit_alarm alarm db).2 = Raise e →
        (submit_alarm alarm db).1 = db ∧ ∃ msg, e = AttributeError msg).
Proof.
  rewrite submit_alarm_cases.
  destruct (db !! own_key alarm) as [al|] eqn:Hk.
  - destruct (nothing_changed al alarm) as [[]|e0] eqn:Hn; cbn.
    + split; [split|]; [by intros [? ?] | | by intros ? ?].
      intros (al0 & [= <-] & Hcl & Hc & Hsev).
      assert (Hr : nothing_changed al alarm = Raise
        (AttributeError "'NoneType' object has no attribute 'value'"))
        by by apply nothing_changed_raises.
      congruence.
    + split; [split|]; [by intros [? ?] | | by intros ? ?].
      intros (al0 & [= <-] & Hcl & Hc & Hsev).
      assert (Hr : nothing_changed al alarm = Raise
        (AttributeError "'NoneType' object has no attribute 'value'"))
        by by apply nothing_changed_raises.
      congruence.
    + apply nothing_changed_raises in Hn as (Hcl & Hc & Hsev & ->).
      split; [split|]; [intros _; by exists al | intros _; eauto |].
      intros e [= <-]. eauto.
  - destruct (cleared alarm); cbn;
      (split; [split; [by intros [? ?] | by intros (? & ? & ?)] | by intros ? ?]).
Qed.

(** X10.  Whenever a submission changes the datastore it returns normally,
    and the entry under the alarm's key then reads back the alarm: its
    cleared flag, text, timestamp, impacted and root-cause objects ([None]
    included), for a non-cleared alarm its severity code, and a history record
    with the alarm's timestamp, code and text. *)
Theorem submit_alarm_written_entry (alarm : Alarm) (db : ncs.alarm_list) :
  (submit_alarm alarm db).1 ≠ db →
  ∃ al',
    (submit_alarm alarm db).1 !! own_key alarm = Some al' ∧
    (submit_alarm alarm db).2 = Ok tt ∧
    ncs.is_cleared al' = Some (cleared alarm) ∧
    ncs.last_alarm_text al' = Some (alarm_text alarm) ∧
    ncs.last_status_change al' = Some (timestamp alarm) ∧
    ncs.impacted_objects al' = impacted_objects alarm ∧
    ncs.root_cause_objects al' = root_cause_objects alarm ∧
    (cleared alarm = false →
       ncs.last_perceived_severity al' = Some (ncs_severity alarm)) ∧
    ncs.mk_status_change (timestamp alarm) (Some (ncs_severity alarm))
      (Some (alarm_text alarm)) ∈ ncs.status_change al'.
Proof.
  rewrite submit_alarm_cases. intros Hwrote.
  assert (Hpost : ∀ al,
    let al' := write_alarm alarm al in
    ncs.is_cleared al' = Some (cleared alarm) ∧
    ncs.last_alarm_text al' = Some (alarm_text alarm) ∧
    ncs.last_status_change al' = Some (timestamp alarm) ∧
    ncs.impacted_objects al' = impacted_objects alarm ∧
    ncs.root_cause_objects al' = root_cause_objects alarm ∧
    (cleared alarm = false →
       ncs.last_perceived_severity al' = Some (ncs_severity alarm)) ∧
    ncs.mk_status_change (timestamp alarm) (Some (ncs_severity alarm))
      (Some (alarm_text alarm)) ∈ ncs.status_change al').
  { intros al al'. unfold al'.
    rewrite write_alarm_is_cleared, write_alarm_last_alarm_text,
      write_alarm_last_status_change, write_alarm_impacted_objects,
      write_alarm_root_cause_objects, write_alarm_last_perceived_severity,
      write_alarm_status_change.
    repeat (split; [done|]). apply record_status_change_holds. }
  destruct (db !! own_key alarm) as [al|].
  - destruct (nothing_changed al alarm) as [[]|e]; cbn [fst snd] in *;
      try done.
    exists (write_alarm alarm al).
    split; [apply lookup_insert_eq|]. split; [done | apply Hpost].
  - destruct (cleared alarm) eqn:Hc; cbn [fst snd] in *; try done.
    exists (write_alarm alarm ncs.new_alarm).
    split; [apply lookup_insert_eq|]. split; [done|].
    apply Hpost.
Qed.

Lemma submit_alarm_written_entry_witness :
  ∃ al', db_raised !! c0_key = Some al' ∧ ncs.is_cleared al' = Some false.
Proof.
  destruct (submit_alarm_written_entry link_down ∅)
    as (al' & Hal' & _ & Hcl & _).
  - intros H. apply (f_equal (λ db : ncs.alarm_list, db !! c0_key)) in H.
    vm_compute in H. discriminate H.
  - exists al'. split; [exact Hal' | exact Hcl].
Defined.

(** The entry under the alarm's key after a submission is the one before or
    the one [write_alarm] makes of it. *)
Lemma submit_alarm_own_entry (alarm : Alarm) (db : ncs.alarm_list)
    (al al' : ncs.alarm_entry) :
  db !! own_key alarm = Some al →
  (submit_alarm alarm db).1 !! own_key alarm = Some al' →
  al' = al ∨ al' = write_alarm alarm al.
Proof.
  intros Hk. rewrite submit_alarm_cases, Hk.
  destruct (nothing_changed al alarm) as [[]|e]; cbn [fst].
  - rewrite Hk. intros [= <-]. by left.
  - rewrite lookup_insert_eq. intros [= <-]. by right.
  - rewrite Hk. intros [= <-]. by left.
Qed.

(** X11.  A submission never loses or reorders history: the event times of
    the entry's records before are a prefix of those after, at most one record
    is added, every record under another event time than the alarm's is still
    there unchanged, and if no two records shared an event time before, none
    do after. *)
Theorem submit_alarm_keeps_history (alarm : Alarm) (db : ncs.alarm_list)
    (al al' : ncs.alarm_entry) :
  db !! own_key alarm = Some al →
  (submit_alarm alarm db).1 !! own_key alarm = Some al' →
  event_times al `prefix_of` event_times al' ∧
  (length (ncs.status_change al') ≤ S (length (ncs.status_change al)))%nat ∧
  (∀ sc, sc ∈ ncs.status_change al → ncs.event_time sc ≠ timestamp alarm →
         sc ∈ ncs.status_change al') ∧
  (NoDup (event_times al) → NoDup (event_times al')).
Proof.
  intros Hk Hk'.
  destruct (submit_alarm_own_entry _ _ _ _ Hk Hk') as [-> | ->].
  { repeat split; [done | lia | done | done]. }
  unfold event_times. rewrite write_alarm_status_change.
  split; [| split; [| split]].
  - rewrite record_status_change_times. by apply prefix_app_r.
  - rewrite <- (length_map ncs.event_time), record_status_change_times,
      length_app, length_map.
    destruct (existsb _ _); simpl; lia.
  - intros sc Hsc Hne. by apply record_status_change_others.
  - apply record_status_change_NoDup.
Qed.

Lemma submit_alarm_keeps_history_witness :
  event_times al_raised `prefix_of` event_times al_cleared.
Proof.
  apply (submit_alarm_keeps_history link_down_cleared db_raised
           al_raised al_cleared).
  - vm_compute. reflexivity.
  - vm_compute. reflexivity.
Defined.

(** X12.  A submission only ever adds to an entry's related alarms: those it
    had stay, in place; whatever is new is the key of one of the alarm's
    related identities; no key is entered twice; and an alarm without related
    alarms ([None] or an empty list) leaves them exactly as they were. *)
Theorem submit_alarm_accumulates_related_alarms
    (alarm : Alarm) (db : ncs.alarm_list) (al al' : ncs.alarm_entry) :
  db !! own_key alarm = Some al →
  (submit_alarm alarm db).1 !! own_key alarm = Some al' →
  ncs.related_alarms al `prefix_of` ncs.related_alarms al' ∧
  (∀ k, k ∈ ncs.related_alarms al' →
        k ∈ ncs.related_alarms al ∨
        ∃ ra, ra ∈ default [] (related_alarms alarm) ∧ related_alarm_key ra = k) ∧
  (NoDup (ncs.related_alarms al) → NoDup (ncs.related_alarms al')) ∧
  (default [] (related_alarms alarm) = [] →
     ncs.related_alarms al' = ncs.related_alarms al).
Proof.
  intros Hk Hk'.
  destruct (submit_alarm_own_entry _ _ _ _ Hk Hk') as [-> | ->].
  { repeat split; [done | by left | done]. }
  rewrite write_alarm_related_loop. split; [| split; [| split]].
  - apply related_loop_prefix.
  - intros k. by rewrite related_loop_elem.
  - apply related_loop_NoDup.
  - by intros ->.
Qed.

Lemma submit_alarm_accumulates_related_alarms_witness :
  ncs.related_alarms al_raised `prefix_of` ncs.related_alarms al_cleared.
Proof.
  apply (submit_alarm_accumulates_related_alarms link_down_cleared db_raised
           al_raised al_cleared).
  - vm_compute. reflexivity.
  - vm_compute. reflexivity.
Defined.

(** X13.  What [submit_alarm] does depends on the alarm's key, severity and
    text only: submitting, right after an alarm, a second one with the same
    key, severity and text changes nothing more and ends the same way, however
    the two differ in timestamp, impacted objects, root-cause objects or
    related alarms. *)
Theorem submit_alarm_ignores_other_attributes (a b : Alarm) (db : ncs.alarm_list) :
  own_key b = own_key a →
  severity b = severity a →
  alarm_text b = alarm_text a →
  submit_alarm b (submit_alarm a db).1 = submit_alarm a db.
Proof.
  intros Hkey Hsev Htext.
  assert (Hext : ∀ al, nothing_changed al b = nothing_changed al a)
    by (intros al; by apply nothing_changed_ext).
  assert (Hc : cleared b = cleared a).
  { unfold cleared. unfold severity in Hsev. by rewrite Hsev. }
  rewrite (submit_alarm_cases a db).
  destruct (db !! own_key a) as [al|] eqn:Hk.
  - destruct (nothing_changed al a) as [[]|e] eqn:Hn; cbn [fst].
    + by rewrite submit_alarm_cases, Hkey, Hk, Hext, Hn.
    + by rewrite submit_alarm_cases, Hkey, lookup_insert_eq, Hext,
        nothing_changed_after_write.
    + by rewrite submit_alarm_cases, Hkey, Hk, Hext, Hn.
  - destruct (cleared a) eqn:Hca; cbn [fst].
    + by rewrite submit_alarm_cases, Hkey, Hk, Hc.
    + by rewrite submit_alarm_cases, Hkey, lookup_insert_eq, Hext,
        nothing_changed_after_write.
Qed.

Lemma submit_alarm_ignores_other_attributes_witness :
  submit_alarm link_down_related (submit_alarm link_down ∅).1
    = submit_alarm link_down ∅.
Proof.
  apply (submit_alarm_ignores_other_attributes link_down link_down_related ∅);
    reflexivity.
Defined.

(** X14.  Submissions for different keys do not interfere: in either order
    they leave the same datastore, and each ends as it would have on its
    own. *)
Theorem submit_alarm_commutes (a b : Alarm) (db : ncs.alarm_list) :
  own_key a ≠ own_key b →
  (submit_alarm b (submit_alarm a db).1).1
    = (submit_alarm a (submit_alarm b db).1).1 ∧
  (submit_alarm b (submit_alarm a db).1).2 = (submit_alarm b db).2 ∧
  (submit_alarm a (submit_alarm b db).1).2 = (submit_alarm a db).2.
Proof.
  intros Hne.
  assert (Hb : (submit_alarm a db).1 !! own_key b = db !! own_key b)
    by by apply submit_alarm_other_key.
  assert (Ha : (submit_alarm b db).1 !! own_key a = db !! own_key a)
    by by apply submit_alarm_other_key.
  rewrite (submit_alarm_written b (submit_alarm a db).1), Hb.
  rewrite (submit_alarm_written a (submit_alarm b db).1), Ha.
  rewrite (submit_alarm_written a db), (submit_alarm_written b db).
  cbn [fst snd]. split; [| done].
  destruct (written_entry a (db !! own_key a)),
    (written_entry b (db !! own_key b)); try done.
  by apply insert_insert_ne.
Qed.

Lemma submit_alarm_commutes_witness :
  let c1_down :=
    Alarm__init__ "2024-05-01T10:01:00" c1 MAJOR "link down" None None None None in
  (submit_alarm c1_down (submit_alarm link_down ∅).1).1
    = (submit_alarm link_down (submit_alarm c1_down ∅).1).1.
Proof.
  apply (submit_alarm_commutes link_down
           (Alarm__init__ "2024-05-01T10:01:00" c1 MAJOR "link down"
              None None None None) ∅).
  discriminate.
Defined.

(** X15.  Raising an alarm that has no entry and then clearing it under a
    later timestamp leaves an entry that is cleared, carries the clearing
    alarm's text and timestamp, and has a history of exactly two records: the
    raise with its severity code, then the clear with the code 1. *)
Theorem raise_then_clear_history (a c : Alarm) (db : ncs.alarm_list) :
  db !! own_key a = None →
  cleared a = false →
  cleared c = true →
  own_key c = own_key a →
  timestamp c ≠ timestamp a →
  ∃ al,
    submit_alarm c (submit_alarm a db).1 = (<[own_key a := al]> db, Ok tt) ∧
    ncs.is_cleared al = Some true ∧
    ncs.last_alarm_text al = Some (alarm_text c) ∧
    ncs.last_status_change al = Some (timestamp c) ∧
    ncs.status_change al =
      [ncs.mk_status_change (timestamp a) (Some (ncs_severity a))
         (Some (alarm_text a));
       ncs.mk_status_change (timestamp c) (Some 1%Z) (Some (alarm_text c))].
Proof.
  intros Hnone Ha Hc Hkey Hts.
  destruct (submit_new_alarm_creates_entry a db Hnone Ha)
    as (al & -> & Hcl & _ & _ & _ & _ & _ & Hhist & _).
  exists (write_alarm c al). cbn [fst]. split; [| split; [| split; [| split]]].
  - rewrite submit_alarm_cases, Hkey, lookup_insert_eq.
    rewrite nothing_changed_cleared, Hcl by done.
    rewrite bool_decide_eq_false_2 by done. by rewrite insert_insert_eq.
  - by rewrite write_alarm_is_cleared, Hc.
  - apply write_alarm_last_alarm_text.
  - apply write_alarm_last_status_change.
  - rewrite write_alarm_status_change, Hhist, (ncs_severity_cleared c Hc).
    rewrite record_status_change_new; [done|]. simpl.
    unfold ncs.has_event_time. simpl.
    rewrite bool_decide_eq_false_2; [done | by intros ?].
Qed.

Lemma raise_then_clear_history_witness :
  ∃ al, db_cleared = <[c0_key := al]> ∅ ∧ ncs.is_cleared al = Some true.
Proof.
  destruct (raise_then_clear_history link_down link_down_cleared ∅)
    as (al & Hrun & Hcl & _).
  - apply lookup_empty.
  - reflexivity.
  - reflexivity.
  - reflexivity.
  - discriminate.
  - exists al. split; [| exact Hcl].
    exact (f_equal fst Hrun).
Defined.

(** * Further properties of [purge_alarm] *)

Lemma purge_alarm_delete (alarm_id : AlarmId.t) (db : ncs.alarm_list) :
  purge_alarm alarm_id db = (delete (id_key alarm_id) db, Ok tt).
Proof.
  rewrite purge_alarm_cases. cbv zeta. fold (id_key alarm_id).
  destruct (db !! id_key alarm_id) eqn:Hk; [done|]. by rewrite delete_id.
Qed.

(** X16.  Purging after a submission removes whatever the submission left
    under the alarm's key: the datastore is the one before the submission
    without that key, and is the one before the submission itself if that had
    no entry there.  The identity to purge may name the specific problem as
    [None] or [''] whichever way the alarm did. *)
Theorem purge_after_submit (alarm_id : AlarmId.t) (alarm : Alarm)
    (db : ncs.alarm_list) :
  id_key alarm_id = own_key alarm →
  purge_alarm alarm_id (submit_alarm alarm db).1
    = (delete (own_key alarm) db, Ok tt) ∧
  (db !! own_key alarm = None →
     purge_alarm alarm_id (submit_alarm alarm db).1 = (db, Ok tt)).
Proof.
  intros Hkey.
  assert (Hdel : purge_alarm alarm_id (submit_alarm alarm db).1
                 = (delete (own_key alarm) db, Ok tt)).
  { rewrite purge_alarm_delete, Hkey, submit_alarm_written. cbn [fst].
    destruct (written_entry _ _); [| done]. by rewrite delete_insert_eq. }
  split; [exact Hdel|]. intros Hnone. by rewrite Hdel, delete_id.
Qed.

Lemma purge_after_submit_witness :
  purge_alarm (AlarmId.mk "c0" "/devices/device[name='c0']"
                 "connection-failure" (Some ""))
    (submit_alarm link_down ∅).1 = (∅, Ok tt).
Proof.
  apply (purge_after_submit
           (AlarmId.mk "c0" "/devices/device[name='c0']" "connection-failure"
              (Some "")) link_down ∅).
  - reflexivity.
  - apply lookup_empty.
Defined.

(** X17.  Purging is idempotent, purges commute, and identities that address
    the same entry purge alike. *)
Theorem purge_alarm_idempotent_commutes (i j : AlarmId.t) (db : ncs.alarm_list) :
  purge_alarm i (purge_alarm i db).1 = purge_alarm i db ∧
  (purge_alarm i (purge_alarm j db).1).1 = (purge_alarm j (purge_alarm i db).1).1 ∧
  (id_key i = id_key j → purge_alarm i db = purge_alarm j db).
Proof.
  rewrite !purge_alarm_delete. cbn [fst]. split; [| split].
  - by rewrite delete_delete_eq.
  - apply delete_delete.
  - by intros ->.
Qed.

(** X18.  A purge discards the entry with its history and related alarms: a
    non-cleared alarm submitted after the purge of its identity gets the entry
    a first submission creates, with a history of one record, whatever was
    stored before. *)
Theorem submit_after_purge_starts_afresh (alarm_id : AlarmId.t) (alarm : Alarm)
    (db : ncs.alarm_list) :
  id_key alarm_id = own_key alarm →
  cleared alarm = false →
  submit_alarm alarm (purge_alarm alarm_id db).1
    = (<[own_key alarm := write_alarm alarm ncs.new_alarm]> db, Ok tt) ∧
  ncs.status_change (write_alarm alarm ncs.new_alarm) =
    [ncs.mk_status_change (timestamp alarm) (Some (ncs_severity alarm))
       (Some (alarm_text alarm))] ∧
  (∀ k, k ∈ ncs.related_alarms (write_alarm alarm ncs.new_alarm) →
        ∃ ra, ra ∈ default [] (related_alarms alarm) ∧ related_alarm_key ra = k).
Proof.
  intros Hkey Hc. rewrite purge_alarm_delete, Hkey. cbn [fst].
  split; [| split].
  - rewrite submit_alarm_cases, lookup_delete_eq, Hc.
    by rewrite insert_delete_eq.
  - by rewrite write_alarm_status_change, record_status_change_new.
  - intros k. rewrite write_alarm_related_loop, related_loop_elem.
    by intros [?%elem_of_nil | ?].
Qed.

Lemma submit_after_purge_starts_afresh_witness :
  submit_alarm link_down (purge_alarm c0 db_cleared).1
    = (<[own_key link_down := write_alarm link_down ncs.new_alarm]> db_cleared,
       Ok tt).
Proof.
  apply (submit_after_purge_starts_afresh c0 link_down db_cleared);
    reflexivity.
Defined.

(** * An invariant of the alarm list *)

Lemma write_alarm_complete (alarm : Alarm) (al : ncs.alarm_entry) :
  complete (write_alarm alarm al).
Proof.
  unfold complete.
  rewrite write_alarm_is_cleared, write_alarm_last_perceived_severity,
    write_alarm_last_alarm_text, write_alarm_last_status_change.
  repeat (split; [by eexists|]).
  intros Hnil.
  pose proof (record_status_change_holds (timestamp alarm) (ncs_severity alarm)
                (alarm_text alarm) (ncs.status_change al)) as Hin.
  rewrite <- write_alarm_status_change, Hnil in Hin.
  by apply elem_of_nil in Hin.
Qed.

(** X24.  If every entry of the alarm list has its status leaves set and a
    history record, a submission returns normally and every entry still has
    them afterwards. *)
Theorem submit_alarm_keeps_entries_complete (alarm : Alarm) (db : ncs.alarm_list) :
  all_complete db →
  (submit_alarm alarm db).2 = Ok tt ∧ all_complete (submit_alarm alarm db).1.
Proof.
  intros Hdb. split.
  - destruct ((submit_alarm alarm db).2) as [[]|e] eqn:Hr; [done|].
    assert (Hex : ∃ e, (submit_alarm alarm db).2 = Raise e) by eauto.
    apply (proj1 (submit_alarm_raises_iff alarm db)) in Hex
      as (al & Hk & _ & _ & Hnone).
    destruct (Hdb _ _ Hk) as (_ & [v Hv] & _). congruence.
  - rewrite submit_alarm_written. cbn [fst].
    destruct (written_entry alarm (db !! own_key alarm)) as [al'|] eqn:Hw;
      [| exact Hdb].
    intros k al. destruct (decide (own_key alarm = k)) as [<- | Hne].
    + rewrite lookup_insert_eq. intros [= <-]. revert Hw.
      unfold written_entry. destruct (db !! own_key alarm) as [al0|].
      * destruct (nothing_changed al0 alarm) as [[]|e]; intros [= <-].
        apply write_alarm_complete.
      * destruct (cleared alarm); intros [= <-]. apply write_alarm_complete.
    + rewrite lookup_insert_ne by done. apply Hdb.
Qed.

Lemma submit_alarm_keeps_entries_complete_witness :
  (submit_alarm link_down ∅).2 = Ok tt ∧ all_complete (submit_alarm link_down ∅).1.
Proof.
  apply (submit_alarm_keeps_entries_complete link_down ∅).
  intros k al Hk. rewrite lookup_empty in Hk. discriminate Hk.
Defined.

(** X25.  On an alarm list that was empty at first and only ever written by
    submissions and purges, [submit_alarm] never raises. *)
Theorem submit_alarm_never_raises_on_own_list
    (history : list (Alarm + AlarmId.t)) (alarm : Alarm) :
  let db :=
    foldl (λ db op,
             match op with
             | inl a => (submit_alarm a db).1
             | inr i => (purge_alarm i db).1
             end) ∅ history in
  (submit_alarm alarm db).2 = Ok tt.
Proof.
  intros db. apply submit_alarm_keeps_entries_complete. unfold db. clear db.
  assert (Hinv : ∀ db0 : ncs.alarm_list, all_complete db0 →
    all_complete
      (foldl (λ db op,
                match op with
                | inl a => (submit_alarm a db).1
                | inr i => (purge_alarm i db).1
                end) db0 history)).
  { induction history as [|op history IH]; intros db0 Hdb0; [exact Hdb0|].
    simpl. apply IH. destruct op as [a|i].
    - by apply submit_alarm_keeps_entries_complete.
    - rewrite purge_alarm_delete. cbn [fst]. intros k al Hk.
      apply lookup_delete_Some in Hk as [_ Hk]. by apply (Hdb0 k). }
  apply Hinv. intros k al Hk. rewrite lookup_empty in Hk. discriminate Hk.
Qed.

(** * The context manager and the action *)

(** X19.  An [AlarmSink] serves as a context manager at most once, and only
    if it was built without a MAAPI session.  Built without one, the block
    runs its body on the datastore, the session it opened (user
    [python-alarm-sink-write], context [system]) is closed whether the body
    returns or raises, and the body's outcome is the block's.  Built with a
    session, or entered a second time, [__enter__] raises [Exception]: the
    body does not run, and the datastore and the sink are as before. *)
Theorem AlarmSink_context_manager_single_use
    {A : Type} (body again : Py ncs.alarm_list A)
    (m : ncs_maapi.Maapi) (db : ncs.alarm_list) :
  let used :=
    mk_AlarmSink
      (Some (ncs_maapi.mk (Some ("python-alarm-sink-write", "system")) true)) in
  let refused : outcome A :=
    Raised (Exception "If using context manager, don't provide a MAAPI session") in
  with_AlarmSink body (AlarmSink__init__ None) db
    = (used, (body db).1, outcome_of (body db).2) ∧
  with_AlarmSink again used (body db).1 = (used, (body db).1, refused) ∧
  with_AlarmSink body (AlarmSink__init__ (Some m)) db
    = (AlarmSink__init__ (Some m), db, refused).
Proof.
  intros used refused. unfold with_AlarmSink. cbn.
  destruct (body db) as [db' r]. done.
Qed.

(** X20.  [PerceivedSeverity[key]] gives a member exactly for that member's
    name, and raises [KeyError] for every other key. *)
Theorem PerceivedSeverity_getitem_name (key : string) (m : PerceivedSeverity) :
  PerceivedSeverity_getitem (name m) = Ok m ∧
  (PerceivedSeverity_getitem key = Ok m ↔ key = name m) ∧
  (PerceivedSeverity_getitem key = Raise KeyError ↔ ∀ m', key ≠ name m').
Proof.
  assert (Hname : ∀ m', PerceivedSeverity_getitem (name m') = Ok m')
    by (by intros []).
  assert (Hcases : (∃ m', key = name m') ∨
                   PerceivedSeverity_getitem key = Raise KeyError).
  { unfold PerceivedSeverity_getitem. cbn [filter list_filter].
    repeat (case_decide; [left; eexists; symmetry; eassumption|]).
    by right. }
  split; [apply Hname|]. split.
  - split; [| intros ->; apply Hname].
    destruct Hcases as [[m' ->] | Hr]; [| congruence].
    rewrite Hname. by intros [= ->].
  - split.
    + intros Hr m' ->. rewrite Hname in Hr. discriminate.
    + intros Hnone. destruct Hcases as [[m' ->] | Hr]; [| done].
      by destruct (Hnone m').
Qed.

Lemma cb_action_runs (upper : string → string) (now : string)
    (input : action_input.t) (db : ncs.alarm_list) :
  cb_action upper now input db =
    match PerceivedSeverity_getitem (upper (action_input.severity input)) with
    | Raise e => (db, Raised (Builtin e))
    | Ok sev =>
        ((submit_alarm (action_alarm now sev input) db).1,
         outcome_of (submit_alarm (action_alarm now sev input) db).2)
    end.
Proof.
  unfold cb_action. destruct (PerceivedSeverity_getitem _) as [sev|e]; [| done].
  unfold with_AlarmSink. cbn.
  by destruct (submit_alarm _ db).
Qed.

(** X21.  The action submits one alarm built from its input when the
    upper-cased severity is the name of a severity, and otherwise raises
    [KeyError] before anything is submitted, the datastore untouched; it never
    ends with the [Exception] of the context manager. *)
Theorem cb_action_submits_or_raises_KeyError (upper : string → string)
    (now : string) (input : action_input.t) (db : ncs.alarm_list) :
  (∀ sev, upper (action_input.severity input) = name sev →
     cb_action upper now input db =
       ((submit_alarm (action_alarm now sev input) db).1,
        outcome_of (submit_alarm (action_alarm now sev input) db).2)) ∧
  ((∀ sev, upper (action_input.severity input) ≠ name sev) →
     cb_action upper now input db = (db, Raised (Builtin KeyError))) ∧
  (∀ msg, (cb_action upper now input db).2 = Raised (Exception msg) → False).
Proof.
  rewrite cb_action_runs. split; [| split].
  - intros sev ->.
    by rewrite (proj1 (PerceivedSeverity_getitem_name "" sev)).
  - intros Hnone.
    by rewrite (proj2 (proj2 (proj2 (PerceivedSeverity_getitem_name
                  (upper (action_input.severity input)) CLEARED))) Hnone).
  - intros msg. destruct (PerceivedSeverity_getitem _) as [sev|e]; [| done].
    cbn [snd]. by destruct ((submit_alarm _ db).2).
Qed.

Lemma cb_action_submits_or_raises_KeyError_witness :
  cb_action ascii_upper "2024-05-01T10:00:00" link_down_input ∅ =
    ((submit_alarm (action_alarm "2024-05-01T10:00:00" MINOR link_down_input) ∅).1,
     outcome_of
       (submit_alarm (action_alarm "2024-05-01T10:00:00" MINOR link_down_input)
          ∅).2).
Proof.
  apply (proj1 (cb_action_submits_or_raises_KeyError ascii_upper
                  "2024-05-01T10:00:00" link_down_input ∅) MINOR).
  vm_compute. reflexivity.
Defined.

(** X22.  Invoking the action again with the same input, at whatever later
    time, changes nothing more than the first invocation did and ends the
    same way: an unchanged condition that is reported repeatedly adds no
    history. *)
Theorem cb_action_repeated (upper : string → string) (now later : string)
    (input : action_input.t) (db : ncs.alarm_list) :
  cb_action upper later input (cb_action upper now input db).1
    = cb_action upper now input db.
Proof.
  rewrite !cb_action_runs.
  destruct (PerceivedSeverity_getitem _) as [sev|e]; [| done]. cbn [fst].
  rewrite (submit_alarm_ignores_other_attributes
             (action_alarm now sev input) (action_alarm later sev input));
    [done | ..]; unfold action_alarm;
    by destruct (action_input.cleared input) as [[]|].
Qed.

(** X23.  With the [cleared] flag set, the severity given to the action does
    not matter beyond being the name of some severity: two inputs that differ
    in it only have the same effect. *)
Theorem cb_action_cleared_ignores_severity (upper : string → string)
    (now : string) (input : action_input.t) (other : string)
    (db : ncs.alarm_list) :
  action_input.cleared input = Some true →
  (∃ sev, upper (action_input.severity input) = name sev) →
  (∃ sev, upper other = name sev) →
  cb_action upper now
    (action_input.mk (action_input.device input)
       (action_input.managed_object input) (action_input.type input)
       (action_input.specific_problem input) other
       (action_input.alarm_text input) (action_input.cleared input)) db
  = cb_action upper now input db.
Proof.
  intros Hc [sev Hsev] [sev' Hsev']. rewrite !cb_action_runs.
  cbn [action_input.severity]. rewrite Hsev, Hsev'.
  rewrite !(proj1 (PerceivedSeverity_getitem_name "" _)).
  unfold action_alarm. cbn [action_input.device action_input.managed_object
    action_input.type action_input.specific_problem action_input.alarm_text
    action_input.cleared].
  by rewrite Hc.
Qed.

Lemma cb_action_cleared_ignores_severity_witness :
  let input :=
    action_input.mk "c0" "/devices/device[name='c0']" "connection-failure" None
      "minor" "link down" (Some true) in
  cb_action ascii_upper "2024-05-01T10:05:00"
    (action_input.mk "c0" "/devices/device[name='c0']" "connection-failure" None
       "critical" "link down" (Some true)) db_raised
  = cb_action ascii_upper "2024-05-01T10:05:00" input db_raised.
Proof.
  apply (cb_action_cleared_ignores_severity ascii_upper "2024-05-01T10:05:00"
           (action_input.mk "c0" "/devices/device[name='c0']"
              "connection-failure" None "minor" "link down" (Some true))
           "critical" db_raised).
  - reflexivity.
  - exists MINOR. reflexivity.
  - exists CRITICAL. reflexivity.
Defined.
